(** * Library-Manager: the loan ledger, the catalogue and the data file

    A shallow embedding of [libraryManager_x86.py].  The window class
    [LibraryApp] keeps four collections ([members], [books], [loans],
    [settings]); every slot of the window reads some widgets, mutates the
    collections and shows a message box.  Here each slot is a function from
    the widget values and the collections to the new collections and the
    message box that was shown.

    Conventions.
    - Python integers are unbounded: they are [Z].
    - A stored date is the text 'YYYY-MM-DD' of a [datetime.date]; the ledger
      only parses it back, adds days, subtracts and compares, so a date is
      carried as its day number ([date.toordinal]) in [Z].  The finite range
      of [datetime] (years 1 to 9999) is not represented.
    - A dict that the code reaches through [next(...)] and then mutates is
      rewritten where it sits in its list ([Py.mutate_first]).
    - File contents are Python values as [json.load] returns them
      ([Persistence.json]); the JSON parser itself is not modelled. *)

From Stdlib Require Import ZArith List String Ascii Bool Lia DecimalString.
Import ListNotations.

Local Open Scope Z_scope.

(** ** Python idioms *)

Module Py.

Section Lists.
Context {A : Type}.

(** [next((x for x in xs if p(x)), None)] *)
Definition next_match (p : A -> bool) (xs : list A) : option A := find p xs.

(** mutation of the dict found by [next_match], in place *)
Fixpoint mutate_first (p : A -> bool) (f : A -> A) (xs : list A) : list A :=
  match xs with
  | [] => []
  | x :: rest => if p x then f x :: rest else x :: mutate_first p f rest
  end.

(** mutation of the dict held by a closure: the element at a position *)
Fixpoint mutate_at (i : nat) (f : A -> A) (xs : list A) : list A :=
  match xs, i with
  | [], _ => []
  | x :: rest, O => f x :: rest
  | x :: rest, S j => x :: mutate_at j f rest
  end.

(** [for x in [y for y in xs if p(y)]: mutate x] *)
Definition mutate_all (p : A -> bool) (f : A -> A) (xs : list A) : list A :=
  map (fun x => if p x then f x else x) xs.
End Lists.

(** [len(xs)] *)
Definition len {A : Type} (xs : list A) : Z := Z.of_nat (List.length xs).

(** truth value of a string: [not s] holds for the empty string *)
Definition falsy (s : string) : bool := String.eqb s EmptyString.

(** [s.replace(" ", "_")] *)
Fixpoint replace_spaces (s : string) : string :=
  match s with
  | EmptyString => EmptyString
  | String c rest =>
      String (if Ascii.eqb c " "%char then "_"%char else c) (replace_spaces rest)
  end.

(** [s.split(sep)] for a one-character separator *)
Fixpoint split (sep : ascii) (s : string) : list string :=
  match s with
  | EmptyString => [EmptyString]
  | String c rest =>
      if Ascii.eqb c sep then EmptyString :: split sep rest
      else match split sep rest with
           | piece :: pieces => String c piece :: pieces
           | [] => [String c EmptyString]
           end
  end.

(** white space that [int()] skips at both ends (the ASCII part of it) *)
Definition is_space (c : ascii) : bool :=
  let n := nat_of_ascii c in
  (Nat.leb 9 n && Nat.leb n 13) || (Nat.leb 28 n && Nat.leb n 32).

Fixpoint lstrip (cs : list ascii) : list ascii :=
  match cs with
  | c :: rest => if is_space c then lstrip rest else cs
  | [] => []
  end.

Definition strip (cs : list ascii) : list ascii := rev (lstrip (rev (lstrip cs))).

Definition digit (c : ascii) : option Z :=
  let n := nat_of_ascii c in
  if Nat.leb 48 n && Nat.leb n 57 then Some (Z.of_nat (n - 48)) else None.

(** decimal digits, single underscores allowed between two digits *)
Fixpoint digits (acc : Z) (after_digit : bool) (cs : list ascii) : option Z :=
  match cs with
  | [] => if after_digit then Some acc else None
  | c :: rest =>
      match digit c with
      | Some d => digits (10 * acc + d) true rest
      | None =>
          if Ascii.eqb c "_"%char && after_digit then digits acc false rest
          else None
      end
  end.

(** [int(s)]: [None] stands for ValueError.  Strings are byte strings here,
    so only the ASCII digits and blanks are recognised. *)
Definition int (s : string) : option Z :=
  match strip (list_ascii_of_string s) with
  | "-"%char :: ds => option_map Z.opp (digits 0 false ds)
  | "+"%char :: ds => digits 0 false ds
  | ds => digits 0 false ds
  end.

(** [map(int, pieces)] consumed to the end: the first failure raises *)
Fixpoint map_int (pieces : list string) : option (list Z) :=
  match pieces with
  | [] => Some []
  | p :: rest =>
      match int p, map_int rest with
      | Some n, Some ns => Some (n :: ns)
      | _, _ => None
      end
  end.

End Py.

(** ** Calendar conversion *)

Module Calendar.

Section ToJalali.
(** [jdatetime.date.fromgregorian(year=y, month=m, day=d).strftime("%Y/%m/%d")];
    the package is not part of the repository.  [None] stands for the
    exception it raises when there is no such Gregorian day. *)
Variable fromgregorian : Z -> Z -> Z -> option string.

Definition placeholder : string := "-".

Definition to_jalali (date_str : string) : string :=
  if Py.falsy date_str then placeholder
  else
    match Py.map_int (Py.split "-"%char date_str) with
    | Some [y; m; d] =>
        match fromgregorian y m d with
        | Some shown => shown
        | None => date_str
        end
    | _ => date_str
    end.
End ToJalali.

End Calendar.

(** ** Records of the data file *)

Definition date := Z.

Module Member.
Record t := mk
  { student_id : string;
    national_id : string;
    phone : string;
    first_name : string;
    last_name : string }.
End Member.

Module Book.
Record t := mk
  { id : string;
    title : string;
    author : string;
    publish_date : string;
    total_copies : Z;
    available_copies : Z;
    is_borrowed : bool }.

Definition has_id (i : string) (b : t) : bool := String.eqb (id b) i.

Definition set_copies (total available : Z) (b : t) : t :=
  mk (id b) (title b) (author b) (publish_date b) total available (is_borrowed b).

Definition set_available (available : Z) (b : t) : t :=
  set_copies (total_copies b) available b.

Definition set_is_borrowed (flag : bool) (b : t) : t :=
  mk (id b) (title b) (author b) (publish_date b)
     (total_copies b) (available_copies b) flag.

Definition set_id (i : string) (b : t) : t :=
  mk i (title b) (author b) (publish_date b)
     (total_copies b) (available_copies b) (is_borrowed b).
End Book.

Module Loan.
(** [return_date] is [None] while the loan is active; [renewed],
    [fine_paid] and [unpaid_fine] are keys that appear later in the
    loan's life. *)
Record t := mk
  { id : Z;
    member_id : string;
    book_id : string;
    book_title : string;
    loan_date : date;
    due_date : date;
    return_date : option date;
    loan_period : Z;
    renewed : option bool;
    fine_paid : option bool;
    unpaid_fine : option Z }.

Definition has_id (i : Z) (l : t) : bool := Z.eqb (id l) i.

Definition active (l : t) : bool :=
  match return_date l with None => true | Some _ => false end.

Definition set_renewal (due : date) (period : Z) (l : t) : t :=
  mk (id l) (member_id l) (book_id l) (book_title l) (loan_date l)
     due (return_date l) period (Some true) (fine_paid l) (unpaid_fine l).

Definition set_return_date (d : date) (l : t) : t :=
  mk (id l) (member_id l) (book_id l) (book_title l) (loan_date l)
     (due_date l) (Some d) (loan_period l) (renewed l) (fine_paid l) (unpaid_fine l).

Definition set_fine (paid : bool) (unpaid : Z) (l : t) : t :=
  mk (id l) (member_id l) (book_id l) (book_title l) (loan_date l)
     (due_date l) (return_date l) (loan_period l) (renewed l) (Some paid) (Some unpaid).
End Loan.

Module Settings.
(** The dict is created with both keys and never loses one. *)
Record t := mk
  { default_loan_period : Z;
    fine_per_day : Z }.
End Settings.

(** the message box a slot ends with *)
Inductive dialog := Silent | Information | Warning | Critical.

(** ** The application state and its slots *)

Module App.

Record LibraryApp := mk
  { members : list Member.t;
    books : list Book.t;
    loans : list Loan.t;
    settings : Settings.t }.

(** [__init__], before any file is read *)
Definition init : LibraryApp :=
  mk [] [] [] (Settings.mk 14 1000).

Definition set_members (ms : list Member.t) (s : LibraryApp) : LibraryApp :=
  mk ms (books s) (loans s) (settings s).
Definition set_books (bs : list Book.t) (s : LibraryApp) : LibraryApp :=
  mk (members s) bs (loans s) (settings s).
Definition set_loans (ls : list Loan.t) (s : LibraryApp) : LibraryApp :=
  mk (members s) (books s) ls (settings s).
Definition set_settings (st : Settings.t) (s : LibraryApp) : LibraryApp :=
  mk (members s) (books s) (loans s) st.

(** *** Members *)

Definition add_member (m : Member.t) (s : LibraryApp) : LibraryApp * dialog :=
  let sid := Member.student_id m in
  if Py.falsy sid then (s, Warning)
  else if existsb (fun x => String.eqb (Member.student_id x) sid) (members s)
  then (s, Warning)
  else (set_members (members s ++ [m]) s, Information).

(** [sid] is the text of the selected table row, [None] when no row is
    selected *)
Definition edit_member (row : option string) (fields : Member.t) (s : LibraryApp)
  : LibraryApp * dialog :=
  match row with
  | None => (s, Warning)
  | Some sid =>
      let p := fun x => String.eqb (Member.student_id x) sid in
      match Py.next_match p (members s) with
      | None => (s, Warning)
      | Some _ => (set_members (Py.mutate_first p (fun _ => fields) (members s)) s, Silent)
      end
  end.

Definition delete_member (row : option string) (confirm : bool) (s : LibraryApp)
  : LibraryApp * dialog :=
  match row with
  | None => (s, Warning)
  | Some sid =>
      if existsb (fun l => String.eqb (Loan.member_id l) sid && Loan.active l) (loans s)
      then (s, Critical)
      else if confirm
      then (set_members
              (filter (fun m => negb (String.eqb (Member.student_id m) sid)) (members s)) s,
            Silent)
      else (s, Silent)
  end.

(** *** Books *)

Definition add_book (title author publish : string) (copies : Z) (s : LibraryApp)
  : LibraryApp * dialog :=
  if Py.falsy title || Py.falsy author then (s, Warning)
  else
    let book_id :=
      Py.replace_spaces (title ++ "_" ++ author ++ "_" ++ publish)%string in
    match Py.next_match (Book.has_id book_id) (books s) with
    | Some _ =>
        (set_books
           (Py.mutate_first (Book.has_id book_id)
              (fun b => Book.set_copies (Book.total_copies b + copies)
                                        (Book.available_copies b + copies) b)
              (books s)) s,
         Information)
    | None =>
        (set_books
           (books s ++ [Book.mk book_id title author publish copies copies false]) s,
         Information)
    end.

(** The closure [save_book] of [edit_book], statement by statement.  [book]
    is the dict the enclosing slot found; [book.update] runs first, so every
    later [book.get] sees the new values. *)
Definition save_book_dict (new_title new_author new_publish : string) (new_total : Z)
  (book : Book.t) : Book.t :=
  let book :=
    Book.mk (Book.id book) new_title new_author new_publish new_total
            (Book.available_copies book) (Book.is_borrowed book) in
  let diff := new_total - Book.total_copies book in
  let book := Book.set_available (Z.max 0 (Book.available_copies book + diff)) book in
  if negb (String.eqb new_title (Book.title book))
     || negb (String.eqb new_author (Book.author book))
  then Book.set_id (Py.replace_spaces (new_title ++ "_" ++ new_author)%string) book
  else book.

(** [pos] is the place in [self.books] of the dict [edit_book] found for the
    selected row *)
Definition save_book (pos : nat) (new_title new_author new_publish : string)
  (new_total : Z) (s : LibraryApp) : LibraryApp * dialog :=
  (set_books
     (Py.mutate_at pos (save_book_dict new_title new_author new_publish new_total)
        (books s)) s,
   Silent).

Definition same_title_author (title author : string) (b : Book.t) : bool :=
  String.eqb (Book.title b) title && String.eqb (Book.author b) author.

Definition delete_book (row : option (string * string)) (confirm : bool) (s : LibraryApp)
  : LibraryApp * dialog :=
  match row with
  | None => (s, Warning)
  | Some (title, author) =>
      match Py.next_match (same_title_author title author) (books s) with
      | None => (s, Warning)
      | Some book =>
          if Book.available_copies book <? Book.total_copies book then (s, Critical)
          else if confirm
          then (set_books
                  (filter (fun b => negb (same_title_author title author b)) (books s)) s,
                Silent)
          else (s, Silent)
      end
  end.

(** *** Loans *)

(** the data items of [loan_book_combo] after [update_loan_combos]: the
    empty first entry, then the ids of the books with a copy left *)
Definition update_loan_combos (s : LibraryApp) : list string :=
  EmptyString ::
  map Book.id (filter (fun b => 0 <? Book.available_copies b) (books s)).

(** what [loan_book] writes into the book *)
Definition handed_out (b : Book.t) : Book.t :=
  let b := Book.set_available (Z.max 0 (Book.available_copies b - 1)) b in
  if Book.available_copies b =? 0 then Book.set_is_borrowed true b else b.

(** [member_id], [book_id]: [currentData()] of the two combo boxes;
    [period]: the spin box of the dialog, [None] when it was cancelled *)
Definition loan_book (member_id book_id : string) (period : option Z) (today : date)
  (s : LibraryApp) : LibraryApp * dialog :=
  if Py.falsy member_id || Py.falsy book_id then (s, Warning)
  else
    let book := Py.next_match (Book.has_id book_id) (books s) in
    match period with
    | None => (s, Silent)
    | Some period =>
        let loan :=
          Loan.mk (Py.len (loans s) + 1) member_id book_id
                  (match book with Some b => Book.title b | None => book_id end)
                  today (today + period) None period None None None in
        let books' :=
          match book with
          | Some _ =>
              Py.mutate_first (Book.has_id book_id) handed_out (books s)
          | None => books s
          end in
        (mk (members s) books' (loans s ++ [loan]) (settings s), Information)
    end.

(** [row]: the id shown in the selected row of the active-loans table;
    [days]: the spin box of the dialog, [None] when it was cancelled *)
Definition renew_loan (row : option Z) (days : option Z) (s : LibraryApp)
  : LibraryApp * dialog :=
  match row with
  | None => (s, Warning)
  | Some loan_id =>
      match Py.next_match (Loan.has_id loan_id) (loans s) with
      | None => (s, Warning)
      | Some _ =>
          match days with
          | None => (s, Silent)
          | Some days =>
              (set_loans
                 (Py.mutate_first (Loan.has_id loan_id)
                    (fun l => Loan.set_renewal (Loan.due_date l + days)
                                           (Loan.loan_period l + days) l)
                    (loans s)) s,
               Information)
          end
      end
  end.

(** the fine that [return_book] computes for a loan *)
Definition days_overdue (today due : date) : Z :=
  if due <? today then today - due else 0.

Definition fine_of (today : date) (fine_per_day : Z) (l : Loan.t) : Z :=
  days_overdue today (Loan.due_date l) * fine_per_day.

(** what [return_book] writes into the loan; [pay_now]: the button clicked
    in the late-fee box *)
Definition returned (today : date) (fine_per_day : Z) (pay_now : bool) (l : Loan.t)
  : Loan.t :=
  let fine := fine_of today fine_per_day l in
  let l := Loan.set_return_date today l in
  if 0 <? fine then
    if pay_now then Loan.set_fine true 0 l else Loan.set_fine false fine l
  else Loan.set_fine true 0 l.

(** what [return_book] writes into the book *)
Definition taken_back (b : Book.t) : Book.t :=
  let b := Book.set_available (Book.available_copies b + 1) b in
  if 0 <? Book.available_copies b then Book.set_is_borrowed false b else b.

Definition return_book (row : option Z) (today : date) (pay_now : bool) (s : LibraryApp)
  : LibraryApp * dialog :=
  match row with
  | None => (s, Warning)
  | Some loan_id =>
      match Py.next_match (Loan.has_id loan_id) (loans s) with
      | None => (s, Warning)
      | Some loan =>
          let fine_per_day := Settings.fine_per_day (settings s) in
          let loans' :=
            Py.mutate_first (Loan.has_id loan_id)
              (returned today fine_per_day pay_now) (loans s) in
          let books' :=
            match Py.next_match (Book.has_id (Loan.book_id loan)) (books s) with
            | Some _ =>
                Py.mutate_first (Book.has_id (Loan.book_id loan)) taken_back (books s)
            | None => books s
            end in
          (mk (members s) books' loans' (settings s), Information)
      end
  end.

Definition owes (member_id : string) (l : Loan.t) : bool :=
  String.eqb (Loan.member_id l) member_id
  && negb (Loan.active l)
  && (0 <? match Loan.unpaid_fine l with Some f => f | None => 0 end).

Definition pay_member_fines (selected_member_id : option string) (confirm : bool)
  (s : LibraryApp) : LibraryApp * dialog :=
  match selected_member_id with
  | None => (s, Warning)
  | Some member_id =>
      if Py.falsy member_id then (s, Warning)
      else if negb (existsb (owes member_id) (loans s)) then (s, Information)
      else if confirm
      then (set_loans (Py.mutate_all (owes member_id) (Loan.set_fine true 0) (loans s)) s,
            Information)
      else (s, Silent)
  end.

(** *** Settings and backups *)

Definition save_settings (period fine : Z) (s : LibraryApp) : LibraryApp * dialog :=
  (set_settings (Settings.mk period fine) s, Information).

(** A backup file whose entries have the shapes of the records above; each
    of the four keys may be missing, and so may each key of [settings]. *)
Record document := mk_document
  { doc_members : option (list Member.t);
    doc_books : option (list Book.t);
    doc_loans : option (list Loan.t);
    doc_default_loan_period : option Z;
    doc_fine_per_day : option Z }.

Definition get {A : Type} (field : option A) (default : A) : A :=
  match field with Some v => v | None => default end.

(** the file dialog of [restore_backup]: closed without a choice, a file
    on which [open] or [json.load] raises, or a backup *)
Inductive chosen_file :=
| NotChosen
| Broken
| Backup (d : document).

Definition restore_backup (file : chosen_file) (s : LibraryApp) : LibraryApp * dialog :=
  match file with
  | NotChosen => (s, Silent)
  | Broken => (s, Critical)
  | Backup d =>
      (mk (get (doc_members d) []) (get (doc_books d) []) (get (doc_loans d) [])
          (Settings.mk
             (get (doc_default_loan_period d) (Settings.default_loan_period (settings s)))
             (get (doc_fine_per_day d) (Settings.fine_per_day (settings s)))),
       Information)
  end.

(** *** Sessions: what the user does, one slot after the other *)

Inductive action :=
| AddMember (m : Member.t)
| EditMember (row : option string) (fields : Member.t)
| DeleteMember (row : option string) (confirm : bool)
| AddBook (title author publish : string) (copies : Z)
| SaveBook (pos : nat) (new_title new_author new_publish : string) (new_total : Z)
| DeleteBook (row : option (string * string)) (confirm : bool)
| LoanBook (member_id book_id : string) (period : option Z) (today : date)
| RenewLoan (row : option Z) (days : option Z)
| ReturnBook (row : option Z) (today : date) (pay_now : bool)
| PayMemberFines (selected : option string) (confirm : bool)
| SaveSettings (period fine : Z)
| RestoreBackup (file : chosen_file).

Definition slot (a : action) (s : LibraryApp) : LibraryApp * dialog :=
  match a with
  | AddMember m => add_member m s
  | EditMember row fields => edit_member row fields s
  | DeleteMember row confirm => delete_member row confirm s
  | AddBook t a p c => add_book t a p c s
  | SaveBook pos t a p n => save_book pos t a p n s
  | DeleteBook row confirm => delete_book row confirm s
  | LoanBook m b p today => loan_book m b p today s
  | RenewLoan row days => renew_loan row days s
  | ReturnBook row today pay_now => return_book row today pay_now s
  | PayMemberFines sel confirm => pay_member_fines sel confirm s
  | SaveSettings p f => save_settings p f s
  | RestoreBackup file => restore_backup file s
  end.

Fixpoint run (session : list action) (s : LibraryApp) : LibraryApp :=
  match session with
  | [] => s
  | a :: rest => run rest (fst (slot a s))
  end.

Definition is_restore (a : action) : bool :=
  match a with RestoreBackup _ => true | _ => false end.

(** *** Properties the claims speak about *)

(** the bounds of a book's availability count *)
Definition within_bounds (b : Book.t) : Prop :=
  0 <= Book.available_copies b <= Book.total_copies b.

Definition within_boundsb (b : Book.t) : bool :=
  (0 <=? Book.available_copies b) && (Book.available_copies b <=? Book.total_copies b).

(** an issued loan gets an id above every id already in the ledger *)
Definition issues_fresh_id (s : LibraryApp) : Prop :=
  forall member_id book_id period today,
    member_id <> EmptyString -> book_id <> EmptyString ->
    exists new,
      loans (fst (loan_book member_id book_id (Some period) today s)) = loans s ++ [new] /\
      forall l, In l (loans s) -> Loan.id l < Loan.id new.

(** the ids of a ledger that was only ever filled by [loan_book] *)
Fixpoint numbered_from (n : Z) (ls : list Loan.t) : Prop :=
  match ls with
  | [] => True
  | l :: rest => Loan.id l = n /\ numbered_from (n + 1) rest
  end.

End App.

(** ** The data file *)

Module Persistence.

(** what [json.load] returns (numbers of the data file are integers) *)
#[warnings="-register-all"]
Inductive json :=
| JNull
| JBool (b : bool)
| JNum (n : Z)
| JStr (s : string)
| JArr (items : list json)
| JObj (entries : list (string * json)).

(** [d.get(name, default)] on a dict read from a file *)
Fixpoint dict_get (entries : list (string * json)) (name : string) (default : json) : json :=
  match entries with
  | [] => default
  | (k, v) :: rest => if String.eqb k name then v else dict_get rest name default
  end.

(** the hashable values: keys that [self.settings] may come to hold *)
Inductive key := KNone | KBool (b : bool) | KNum (n : Z) | KStr (s : string).

Definition hashable (v : json) : option key :=
  match v with
  | JNull => Some KNone
  | JBool b => Some (KBool b)
  | JNum n => Some (KNum n)
  | JStr s => Some (KStr s)
  | JArr _ | JObj _ => None
  end.

Definition key_number (k : key) : option Z :=
  match k with
  | KBool b => Some (if b then 1 else 0)
  | KNum n => Some n
  | KNone | KStr _ => None
  end.

(** [==] on keys: [True == 1] and [False == 0] *)
Definition key_eqb (a b : key) : bool :=
  match a, b with
  | KNone, KNone => true
  | KStr x, KStr y => String.eqb x y
  | _, _ =>
      match key_number a, key_number b with
      | Some x, Some y => x =? y
      | _, _ => false
      end
  end.

Definition dict := list (key * json).

(** [d[k] = v]: an equal key keeps its place and its key object *)
Fixpoint setitem (k : key) (v : json) (d : dict) : dict :=
  match d with
  | [] => [(k, v)]
  | (k', v') :: rest =>
      if key_eqb k' k then (k', v) :: rest else (k', v') :: setitem k v rest
  end.

(** an element of an update sequence read as a key and a value: a list of
    two items, a string of two characters, a dict of two keys *)
Definition as_pair (item : json) : option (json * json) :=
  match item with
  | JArr [k; v] => Some (k, v)
  | JStr (String a (String b EmptyString)) =>
      Some (JStr (String a EmptyString), JStr (String b EmptyString))
  | JObj [(k1, _); (k2, _)] => Some (JStr k1, JStr k2)
  | _ => None
  end.

(** [d.update(items)] for a list: the pairs before the first bad element
    are already stored when the exception is raised.  The flag tells
    whether it was raised. *)
Fixpoint update_from_sequence (items : list json) (d : dict) : dict * bool :=
  match items with
  | [] => (d, false)
  | item :: rest =>
      match as_pair item with
      | Some (k, v) =>
          match hashable k with
          | Some k => update_from_sequence rest (setitem k v d)
          | None => (d, true)
          end
      | None => (d, true)
      end
  end.

(** [d.update(other)] for any value of a data file *)
Definition update (other : json) (d : dict) : dict * bool :=
  match other with
  | JObj entries =>
      (fold_left (fun acc '(k, v) => setitem (KStr k) v acc) entries d, false)
  | JArr items => update_from_sequence items d
  | JStr EmptyString => (d, false)
  | JStr _ | JNull | JBool _ | JNum _ => (d, true)
  end.

(** the four attributes, holding whatever the file gave *)
Record memory := mk
  { members : json;
    books : json;
    loans : json;
    settings : dict }.

(** [__init__], before [load_data] *)
Definition init : memory :=
  mk (JArr []) (JArr []) (JArr [])
     [(KStr "default_loan_period", JNum 14); (KStr "fine_per_day", JNum 1000)].

(** the data file as [load_data] meets it: absent, not readable, or a text
    that [json.load] parses or rejects *)
Inductive data_file :=
| Absent
| Unreadable
| Text (parsed : option json).

Definition load_data (file : data_file) (s : memory) : memory * dialog :=
  match file with
  | Absent => (s, Silent)
  | Unreadable => (s, Warning)
  | Text None => (s, Warning)
  | Text (Some (JObj d)) =>
      let s := mk (dict_get d "members" (JArr [])) (books s) (loans s) (settings s) in
      let s := mk (members s) (dict_get d "books" (JArr [])) (loans s) (settings s) in
      let s := mk (members s) (books s) (dict_get d "loans" (JArr [])) (settings s) in
      let '(merged, raised) := update (dict_get d "settings" (JObj [])) (settings s) in
      (mk (members s) (books s) (loans s) merged,
       if raised then Warning else Silent)
  | Text (Some _) => (s, Warning)
  end.

(** the files that [load_data] gives up on before its first assignment *)
Definition rejected_at_once (file : data_file) : bool :=
  match file with
  | Absent => false
  | Unreadable => true
  | Text None => true
  | Text (Some (JObj _)) => false
  | Text (Some _) => true
  end.

End Persistence.

(** ** Dashboard and tables *)

Module Reports.
Import App.

(** [sum(xs)] *)
Definition sum (xs : list Z) : Z := fold_left Z.add xs 0.

(** the four counters of the dashboard; the labels show these numbers *)
Record stats := mk_stats
  { lbl_members_count : Z;
    lbl_books_count : Z;
    lbl_loans_count : Z;
    lbl_available_count : Z }.

Definition update_stats (s : LibraryApp) : stats :=
  mk_stats (Py.len (members s)) (Py.len (books s))
           (Py.len (filter Loan.active (loans s)))
           (sum (map Book.available_copies (books s))).

(** the name shown for a loan's member: first and last name, or the bare
    id when no member has it *)
Definition member_name (s : LibraryApp) (member_id : string) : string :=
  match Py.next_match (fun m => String.eqb (Member.student_id m) member_id) (members s) with
  | Some mem => (Member.first_name mem ++ " " ++ Member.last_name mem)%string
  | None => member_id
  end.

(** a row of the active-loans table; the two dates are shown through
    [to_jalali] *)
Record loan_row := mk_loan_row
  { shown_id : Z;
    shown_member : string;
    shown_title : string;
    shown_loan_date : date;
    shown_due_date : date }.

Definition load_active_loans (s : LibraryApp) : list loan_row :=
  map (fun loan =>
         mk_loan_row (Loan.id loan) (member_name s (Loan.member_id loan))
                     (Loan.book_title loan) (Loan.loan_date loan) (Loan.due_date loan))
      (filter Loan.active (loans s)).

(** a row of the overdue table *)
Record overdue_row := mk_overdue_row
  { late_member : string;
    late_title : string;
    late_due_date : date;
    late_days : Z;
    late_fine : Z }.

Definition update_overdue_table (today : date) (s : LibraryApp) : list overdue_row :=
  flat_map
    (fun loan =>
       if Loan.active loan then
         let due := Loan.due_date loan in
         if due <? today then
           let days := today - due in
           let fine := days * Settings.fine_per_day (settings s) in
           [mk_overdue_row (member_name s (Loan.member_id loan)) (Loan.book_title loan)
                           due days fine]
         else []
       else [])
    (loans s).

End Reports.

(** ** The consistency check of the data generator ([gen_data2.py]) *)

Module Generator.

(** the dict [active_loans_per_book] *)
Definition counts := list (string * Z).

Fixpoint get (d : counts) (book_id : string) (default : Z) : Z :=
  match d with
  | [] => default
  | (k, n) :: rest => if String.eqb k book_id then n else get rest book_id default
  end.

Fixpoint set (book_id : string) (n : Z) (d : counts) : counts :=
  match d with
  | [] => [(book_id, n)]
  | (k, m) :: rest =>
      if String.eqb k book_id then (k, n) :: rest else (k, m) :: set book_id n rest
  end.

Definition active_loans_per_book (loans : list Loan.t) : counts :=
  fold_left
    (fun d loan =>
       if Loan.active loan
       then set (Loan.book_id loan) (get d (Loan.book_id loan) 0 + 1) d
       else d)
    loans [].

(** the number of inconsistencies that the check counts and prints *)
Definition book_loan_consistency_check (books : list Book.t) (loans : list Loan.t) : Z :=
  let active_loans_per_book := active_loans_per_book loans in
  fold_left
    (fun inconsistencies book =>
       let expected_available :=
         Book.total_copies book - get active_loans_per_book (Book.id book) 0 in
       let actual_available := Book.available_copies book in
       if negb (expected_available =? actual_available)
       then inconsistencies + 1
       else inconsistencies)
    books 0.

End Generator.

(** ** Work at the desk *)

Module Desk.
Import App.

(** the number of open loans that carry a book id *)
Definition on_loan (book_id : string) (ls : list Loan.t) : Z :=
  Py.len (filter (fun l => Loan.active l && String.eqb (Loan.book_id l) book_id) ls).

(** the state the generator's check accepts: one book per id, every count
    equal to the copies not on loan, none below zero, and every active
    loan on a book of the catalogue *)
Definition consistent (s : LibraryApp) : Prop :=
  NoDup (map Book.id (books s)) /\
  Generator.book_loan_consistency_check (books s) (loans s) = 0 /\
  Forall (fun b => 0 <= Book.available_copies b) (books s) /\
  Forall (fun l => Loan.active l = true -> In (Loan.book_id l) (map Book.id (books s)))
         (loans s).

(** what the widgets allow in a state: a loan on a book that the selector
    offers, the return of a loan that the table of active loans shows, new
    copies in the range of the spin box; no edit, deletion or restore of
    books *)
Definition at_the_desk (a : action) (s : LibraryApp) : bool :=
  match a with
  | LoanBook _ book_id _ _ => existsb (String.eqb book_id) (update_loan_combos s)
  | ReturnBook (Some loan_id) _ _ =>
      match Py.next_match (Loan.has_id loan_id) (loans s) with
      | Some loan => Loan.active loan
      | None => true
      end
  | AddBook _ _ _ copies => (1 <=? copies) && (copies <=? 1000)
  | SaveBook _ _ _ _ _ | DeleteBook _ _ | RestoreBackup _ => false
  | _ => true
  end.

Fixpoint desk_session (session : list action) (s : LibraryApp) : bool :=
  match session with
  | [] => true
  | a :: rest => at_the_desk a s && desk_session rest (fst (slot a s))
  end.

End Desk.

(** ** Writing the data file *)

Module Dump.
Import Persistence.

(** the name [json.dump] writes for a key *)
Definition key_text (k : key) : string :=
  match k with
  | KStr s => s
  | KNum n => DecimalString.NilZero.string_of_int (Z.to_int n)
  | KBool true => "true"
  | KBool false => "false"
  | KNone => "null"
  end.

(** [json.load] on an object: a name written twice keeps its first place
    and its last value *)
Fixpoint object_set (name : string) (v : json) (entries : list (string * json))
  : list (string * json) :=
  match entries with
  | [] => [(name, v)]
  | (k, old) :: rest =>
      if String.eqb k name then (k, v) :: rest else (k, old) :: object_set name v rest
  end.

Definition written_object (d : dict) : json :=
  JObj (fold_left (fun entries '(k, v) => object_set (key_text k) v entries) d []).

(** [save_data]: the file as [load_data] will read it back.  The values
    of the three lists came out of [json.load] and go through [json.dump]
    and back unchanged; the write itself is taken to succeed. *)
Definition save_data (s : memory) : data_file :=
  Text (Some (JObj [("members"%string, members s); ("books"%string, books s);
                    ("loans"%string, loans s);
                    ("settings"%string, written_object (settings s))])).

(** [d[k]], with [None] for a missing key *)
Fixpoint getitem (k : key) (d : dict) : option json :=
  match d with
  | [] => None
  | (k', v) :: rest => if key_eqb k' k then Some v else getitem k rest
  end.

(** [d.update(entries)] for the entries of an object, as [update] does it *)
Definition merged (entries : list (string * json)) (d : dict) : dict :=
  fold_left (fun acc '(k, v) => setitem (KStr k) v acc) entries d.

(** a dict whose keys are all strings, as [__init__] and every merge of
    an object leave it *)
Definition keyed (entries : list (string * json)) : dict :=
  map (fun '(name, v) => (KStr name, v)) entries.

End Dump.

(** ** Sessions and files used as examples *)

Module Scenario.
Import App.
Local Open Scope string_scope.

Definition reader : Member.t := Member.mk "10000001" "0012345678" "0912" "Sara" "Amini".

(** a fresh catalogue with one title in five copies *)
Definition five_copies : list action :=
  [AddBook "Hafez" "Shams" "1390" 5].

(** ... whose copy count is then edited down to two *)
Definition five_then_two : list action :=
  (five_copies ++ [SaveBook 0 "Hafez" "Shams" "1390" 2])%list.

(** a book with one copy, all of it on loan *)
Definition sold_out_book : Book.t :=
  Book.mk "B1" "Divan" "Hafez" "1390" 1 0 true.

(** the loan of that copy: taken on day 100, due on day 114 *)
Definition first_loan : Loan.t :=
  Loan.mk 1 "10000001" "B1" "Divan" 100 114 None 14 None None None.

Definition sold_out : LibraryApp :=
  mk [reader] [sold_out_book] [first_loan] (Settings.mk 14 1000).

(** a book with one copy, which is on the shelf *)
Definition one_copy_book : Book.t :=
  Book.mk "B1" "Divan" "Hafez" "1390" 1 1 false.

(** a backup whose only loan carries the id 2 *)
Definition backup_with_gap : document :=
  mk_document (Some [reader]) (Some [one_copy_book])
    (Some [Loan.mk 2 "10000001" "B1" "Divan" 100 114 (Some 110) 14 None (Some true) (Some 0)])
    None None.

(** a loan whose book left the catalogue under another id *)
Definition orphan : LibraryApp :=
  mk [reader] [Book.mk "B2" "Masnavi" "Rumi" "1385" 3 3 false] [first_loan]
     (Settings.mk 14 1000).

(** one member, one book with two copies: the state before a first loan *)
Definition two_on_shelf : LibraryApp :=
  mk [reader] [Book.mk "B1" "Divan" "Hafez" "1390" 2 2 false] []
     (Settings.mk 14 1000).

End Scenario.

Module FileScenario.
Import Persistence.
Local Open Scope string_scope.

(** a memory that already holds one member *)
Definition loaded : memory :=
  mk (JArr [JObj [("student_id", JStr "10000001")]]) (JArr []) (JArr [])
     (settings init).

(** a file whose [settings] entry is [null] *)
Definition null_settings : data_file :=
  Text (Some (JObj [("members", JArr []); ("settings", JNull)])).

(** a file that holds a list, not an object *)
Definition top_level_list : data_file :=
  Text (Some (JArr [JObj [("members", JArr [])]])).

End FileScenario.

(** * Facts *)

(** ** Lists mutated in place *)

Section MutateFacts.
Context {A : Type}.
Variables (p : A -> bool) (f : A -> A).

Lemma mutate_first_length (xs : list A) :
  List.length (Py.mutate_first p f xs) = List.length xs.
Proof.
  induction xs as [|x xs IH]; simpl; [reflexivity|].
  destruct (p x); simpl; congruence.
Qed.

Lemma mutate_first_absent (xs : list A) :
  Py.next_match p xs = None -> Py.mutate_first p f xs = xs.
Proof.
  unfold Py.next_match.
  induction xs as [|x xs IH]; simpl; [reflexivity|].
  destruct (p x); [discriminate|]. intros H. now rewrite IH.
Qed.

(** the mutated dict is still the one that a second lookup finds *)
Lemma mutate_first_found (xs : list A) (x : A) :
  (forall y, p (f y) = p y) ->
  Py.next_match p xs = Some x ->
  Py.next_match p (Py.mutate_first p f xs) = Some (f x).
Proof.
  unfold Py.next_match. intros Hp.
  induction xs as [|y xs IH]; simpl; [discriminate|].
  destruct (p y) eqn:E; simpl.
  - intros [= ->]. now rewrite Hp, E.
  - rewrite E. exact IH.
Qed.


Lemma mutate_first_view_all {B : Type} (g : A -> B) (xs : list A) :
  (forall y, g (f y) = g y) ->
  map g (Py.mutate_first p f xs) = map g xs.
Proof.
  intros Hg. induction xs as [|y xs IH]; simpl; [reflexivity|].
  destruct (p y); simpl; [now rewrite Hg | now rewrite IH].
Qed.

Lemma mutate_first_twice (h : A -> A) (xs : list A) :
  (forall y, p (f y) = p y) ->
  Py.mutate_first p h (Py.mutate_first p f xs)
  = Py.mutate_first p (fun y => h (f y)) xs.
Proof.
  intros Hp. induction xs as [|y xs IH]; simpl; [reflexivity|].
  destruct (p y) eqn:E; simpl.
  - now rewrite Hp, E.
  - now rewrite E, IH.
Qed.

Lemma mutate_first_Forall (P : A -> Prop) (xs : list A) :
  (forall y, P y -> P (f y)) ->
  Forall P xs -> Forall P (Py.mutate_first p f xs).
Proof.
  intros Hf. induction 1 as [|y ys Hy Hys IH]; simpl; [constructor|].
  destruct (p y); constructor; auto.
Qed.

Lemma mutate_all_view {B : Type} (g : A -> B) (xs : list A) :
  (forall y, g (f y) = g y) ->
  map g (Py.mutate_all p f xs) = map g xs.
Proof.
  intros Hg. unfold Py.mutate_all. rewrite map_map.
  apply map_ext. intros y. destruct (p y); auto.
Qed.

Lemma mutate_at_view {B : Type} (g : A -> B) (i : nat) (xs : list A) :
  (forall y, g (f y) = g y) ->
  map g (Py.mutate_at i f xs) = map g xs.
Proof.
  intros Hg. revert i.
  induction xs as [|y xs IH]; intros [|i]; simpl; try reflexivity.
  - now rewrite Hg.
  - now rewrite IH.
Qed.

End MutateFacts.

Lemma len_app {A : Type} (xs : list A) (x : A) : Py.len (xs ++ [x]) = Py.len xs + 1.
Proof. unfold Py.len. rewrite length_app. simpl. lia. Qed.

Lemma falsy_false (s : string) : s <> EmptyString -> Py.falsy s = false.
Proof. intros H. unfold Py.falsy. now apply String.eqb_neq. Qed.

(** ** Calendar conversion *)

Section CalendarFacts.
Variable fromgregorian : Z -> Z -> Z -> option string.

(** [to_jalali] never shows the placeholder for a text that is not empty
    and that [int()] rejects: it shows the text itself. *)
Lemma to_jalali_echoes_unparsed (date_str : string) :
  date_str <> EmptyString ->
  Py.map_int (Py.split "-"%char date_str) = None ->
  Calendar.to_jalali fromgregorian date_str = date_str.
Proof.
  intros Hne Hint. unfold Calendar.to_jalali.
  now rewrite (falsy_false _ Hne), Hint.
Qed.

(** C9.  The docstring of [to_jalali] promises '-' for an invalid date.
    On the text 2024/01/05, which is not empty and not 'YYYY-MM-DD',
    [to_jalali] raises nothing and returns the text itself, not the
    placeholder '-'. *)
Theorem to_jalali_slashed_date_not_placeholder :
  Calendar.to_jalali fromgregorian "2024/01/05" = "2024/01/05"%string /\
  Calendar.to_jalali fromgregorian "2024/01/05" <> Calendar.placeholder.
Proof.
  assert (E : Calendar.to_jalali fromgregorian "2024/01/05" = "2024/01/05"%string)
    by (apply to_jalali_echoes_unparsed; [discriminate | reflexivity]).
  split; [exact E | rewrite E; discriminate].
Qed.
End CalendarFacts.

(** ** The catalogue *)

Section CatalogueFacts.
Import App.

(** [save_book] computes [diff] after [book.update] has stored the new
    total: the difference is always zero, and so is the change of id. *)
Lemma save_book_dict_spelled_out (t a p : string) (n : Z) (b : Book.t) :
  save_book_dict t a p n b
  = Book.mk (Book.id b) t a p n (Z.max 0 (Book.available_copies b)) (Book.is_borrowed b).
Proof.
  unfold save_book_dict, Book.set_available, Book.set_copies, Book.set_id. simpl.
  rewrite !String.eqb_refl. simpl.
  now replace (Book.available_copies b + (n - n)) with (Book.available_copies b) by lia.
Qed.

(** C4.  A book with one copy, on the shelf, is edited to four copies.
    The three new copies are not counted: [available_copies] stays 1,
    where adding [new_total - old_total] would give 4. *)
Theorem save_book_forgets_new_copies :
  Book.total_copies Scenario.one_copy_book = 1 /\
  Book.available_copies Scenario.one_copy_book = 1 /\
  Book.total_copies (save_book_dict "Divan" "Hafez" "1390" 4 Scenario.one_copy_book) = 4 /\
  Book.available_copies (save_book_dict "Divan" "Hafez" "1390" 4 Scenario.one_copy_book) = 1 /\
  Z.max 0 (Book.available_copies Scenario.one_copy_book
           + (4 - Book.total_copies Scenario.one_copy_book)) = 4.
Proof. repeat split. Qed.

Lemma within_boundsb_spec (b : Book.t) :
  within_boundsb b = true <-> within_bounds b.
Proof.
  unfold within_boundsb, within_bounds.
  rewrite andb_true_iff, !Z.leb_le. tauto.
Qed.

(** issuing a loan keeps every count within its bounds *)
Lemma loan_book_within_bounds (member_id book_id : string) (period : option Z)
  (today : date) (s : LibraryApp) :
  Forall within_bounds (books s) ->
  Forall within_bounds (books (fst (loan_book member_id book_id period today s))).
Proof.
  intros H. unfold loan_book.
  destruct (_ || _); [exact H|].
  destruct period as [period|]; [|exact H]. simpl.
  destruct (Py.next_match _ _); [|exact H].
  apply mutate_first_Forall; [|exact H].
  intros b Hb. unfold within_bounds, handed_out in *.
  destruct (_ =? 0); simpl; lia.
Qed.

(** adding copies of a title keeps every count within its bounds *)
Lemma add_book_within_bounds (title author publish : string) (copies : Z)
  (s : LibraryApp) :
  0 <= copies ->
  Forall within_bounds (books s) ->
  Forall within_bounds (books (fst (add_book title author publish copies s))).
Proof.
  intros Hc H. unfold add_book.
  destruct (_ || _); [exact H|].
  destruct (Py.next_match _ _); simpl.
  - apply mutate_first_Forall; [|exact H].
    intros b Hb. unfold within_bounds in *. simpl. lia.
  - apply Forall_app. split; [exact H|].
    constructor; [|constructor]. unfold within_bounds. simpl. lia.
Qed.

(** C1.  A fresh catalogue receives a title in five copies; all counts
    are within their bounds.  The copy count is then edited to two:
    the book is left with [available_copies = 5] above
    [total_copies = 2]. *)
Theorem save_book_breaks_bounds :
  forallb within_boundsb (books (run Scenario.five_copies init)) = true /\
  map (fun b => (Book.total_copies b, Book.available_copies b))
      (books (run Scenario.five_then_two init)) = [(2, 5)] /\
  forallb within_boundsb (books (run Scenario.five_then_two init)) = false.
Proof. repeat split. Qed.

(** the same bound is left by [return_book] when a loan points at a book
    whose copies are all on the shelf: the count goes from 1 to 2 of 1 *)
Example return_book_breaks_bounds :
  let s := fst (restore_backup
                  (Backup (mk_document None (Some [Scenario.one_copy_book])
                             (Some [Scenario.first_loan]) None None)) init) in
  forallb within_boundsb (books s) = true /\
  map Book.available_copies (books (fst (return_book (Some 1) 110 false s))) = [2].
Proof. repeat split. Qed.
End CatalogueFacts.

(** ** The loan ledger *)

Section LedgerFacts.
Import App.

Lemma days_overdue_max (today due : date) :
  days_overdue today due = Z.max 0 (today - due).
Proof. unfold days_overdue. destruct (Z.ltb_spec due today); lia. Qed.

Lemma returned_keeps_id today fpd pay_now l :
  Loan.id (returned today fpd pay_now l) = Loan.id l.
Proof. unfold returned. destruct (0 <? _); [destruct pay_now|]; reflexivity. Qed.

Lemma returned_has_id today fpd pay_now i l :
  Loan.has_id i (returned today fpd pay_now l) = Loan.has_id i l.
Proof. unfold Loan.has_id. now rewrite returned_keeps_id. Qed.

Lemma returned_fields today fpd pay_now l :
  exists paid unpaid,
    Loan.return_date (returned today fpd pay_now l) = Some today /\
    Loan.fine_paid (returned today fpd pay_now l) = Some paid /\
    Loan.unpaid_fine (returned today fpd pay_now l) = Some unpaid.
Proof.
  unfold returned. destruct (0 <? _); [destruct pay_now|];
    do 2 eexists; repeat split.
Qed.

(** what a second lookup finds once [return_book] is through *)
Lemma return_book_loan (s : LibraryApp) loan_id loan today pay_now :
  Py.next_match (Loan.has_id loan_id) (loans s) = Some loan ->
  Py.next_match (Loan.has_id loan_id)
    (loans (fst (return_book (Some loan_id) today pay_now s)))
  = Some (returned today (Settings.fine_per_day (settings s)) pay_now loan)
  /\ snd (return_book (Some loan_id) today pay_now s) = Information.
Proof.
  intros Hl. unfold return_book. rewrite Hl. simpl. split; [|reflexivity].
  apply mutate_first_found; [|exact Hl].
  intros y. apply returned_has_id.
Qed.

Lemma return_book_books (s : LibraryApp) loan_id loan today pay_now :
  Py.next_match (Loan.has_id loan_id) (loans s) = Some loan ->
  books (fst (return_book (Some loan_id) today pay_now s))
  = Py.mutate_first (Book.has_id (Loan.book_id loan)) taken_back (books s).
Proof.
  intros Hl. unfold return_book. rewrite Hl. simpl.
  destruct (Py.next_match _ (books s)) eqn:E; [reflexivity|].
  symmetry. now apply mutate_first_absent.
Qed.

(** C3.  Returning an active loan on day [today]: with
    [fine = max(0, today - due_date) * fine_per_day], the loan gets
    [return_date = today]; [fine_paid = True, unpaid_fine = 0] when the
    fine is zero or is settled at once; [fine_paid = False,
    unpaid_fine = fine] when a positive fine is deferred.  The loan keeps
    its id, member, book and due date. *)
Theorem return_book_records_outcome (s : LibraryApp) loan_id loan today pay_now :
  Py.next_match (Loan.has_id loan_id) (loans s) = Some loan ->
  Loan.return_date loan = None ->
  let fine :=
    Z.max 0 (today - Loan.due_date loan) * Settings.fine_per_day (settings s) in
  exists loan',
    Py.next_match (Loan.has_id loan_id)
      (loans (fst (return_book (Some loan_id) today pay_now s))) = Some loan' /\
    snd (return_book (Some loan_id) today pay_now s) = Information /\
    Loan.return_date loan' = Some today /\
    (fine = 0 -> Loan.fine_paid loan' = Some true /\ Loan.unpaid_fine loan' = Some 0) /\
    (0 < fine -> pay_now = false ->
     Loan.fine_paid loan' = Some false /\ Loan.unpaid_fine loan' = Some fine) /\
    (0 < fine -> pay_now = true ->
     Loan.fine_paid loan' = Some true /\ Loan.unpaid_fine loan' = Some 0) /\
    Loan.id loan' = Loan.id loan /\
    Loan.member_id loan' = Loan.member_id loan /\
    Loan.book_id loan' = Loan.book_id loan /\
    Loan.due_date loan' = Loan.due_date loan.
Proof.
  intros Hl _ fine.
  destruct (return_book_loan s loan_id loan today pay_now Hl) as [Hfound Hbox].
  eexists. split; [exact Hfound|]. split; [exact Hbox|].
  assert (Efine : fine_of today (Settings.fine_per_day (settings s)) loan = fine)
    by (unfold fine_of, fine; now rewrite days_overdue_max).
  unfold returned. rewrite Efine.
  destruct (Z.ltb_spec 0 fine) as [Hpos|Hnonpos].
  - destruct pay_now; simpl; repeat split; try reflexivity;
      intros; try lia; try discriminate; auto.
  - simpl; repeat split; try reflexivity; intros; lia.
Qed.

Lemma return_book_records_outcome_witness :
  Py.next_match (Loan.has_id 1) (loans Scenario.sold_out) = Some Scenario.first_loan /\
  Loan.return_date Scenario.first_loan = None /\
  exists loan',
    Py.next_match (Loan.has_id 1)
      (loans (fst (return_book (Some 1) 119 false Scenario.sold_out))) = Some loan' /\
    Loan.return_date loan' = Some 119 /\
    Loan.fine_paid loan' = Some false /\ Loan.unpaid_fine loan' = Some 5000.
Proof.
  split; [reflexivity|]. split; [reflexivity|].
  destruct (return_book_records_outcome Scenario.sold_out 1 Scenario.first_loan
              119 false eq_refl eq_refl)
    as (loan' & Hfound & _ & Hdate & _ & Hlate & _).
  exists loan'. split; [exact Hfound|]. split; [exact Hdate|].
  apply Hlate; reflexivity.
Defined.

(** C5.  Renewing an active loan by [d >= 1] days moves [due_date] to the
    former [due_date] plus [d], whatever the day of the renewal, sets
    [renewed = True] and adds [d] to [loan_period]; the loan stays
    active. *)
Theorem renew_loan_extends_from_due_date (s : LibraryApp) loan_id loan d :
  Py.next_match (Loan.has_id loan_id) (loans s) = Some loan ->
  Loan.return_date loan = None ->
  1 <= d ->
  exists loan',
    Py.next_match (Loan.has_id loan_id)
      (loans (fst (renew_loan (Some loan_id) (Some d) s))) = Some loan' /\
    snd (renew_loan (Some loan_id) (Some d) s) = Information /\
    Loan.due_date loan' = Loan.due_date loan + d /\
    Loan.renewed loan' = Some true /\
    Loan.loan_period loan' = Loan.loan_period loan + d /\
    Loan.return_date loan' = None /\
    Loan.id loan' = Loan.id loan /\
    Loan.loan_date loan' = Loan.loan_date loan.
Proof.
  intros Hl Hactive _. unfold renew_loan. rewrite Hl. simpl.
  eexists. split.
  - apply mutate_first_found; [|exact Hl]. intros y. reflexivity.
  - simpl. repeat split; try reflexivity. exact Hactive.
Qed.

Lemma renew_loan_extends_from_due_date_witness :
  Py.next_match (Loan.has_id 1) (loans Scenario.sold_out) = Some Scenario.first_loan /\
  Loan.return_date Scenario.first_loan = None /\
  1 <= 7 /\
  exists loan',
    Py.next_match (Loan.has_id 1)
      (loans (fst (renew_loan (Some 1) (Some 7) Scenario.sold_out))) = Some loan' /\
    Loan.due_date loan' = 121 /\ Loan.loan_period loan' = 21.
Proof.
  split; [reflexivity|]. split; [reflexivity|]. split; [lia|].
  destruct (renew_loan_extends_from_due_date Scenario.sold_out 1 Scenario.first_loan 7
              eq_refl eq_refl ltac:(lia))
    as (loan' & Hfound & _ & Hdue & _ & Hperiod & _).
  exists loan'. split; [exact Hfound|]. split; [exact Hdue | exact Hperiod].
Defined.

(** C10.  Returning an active loan whose [book_id] is the id of no book
    in the catalogue still writes [return_date], [fine_paid] and
    [unpaid_fine] into the loan, and leaves the list of books, hence
    every [available_copies], as it was. *)
Theorem return_book_without_book (s : LibraryApp) loan_id loan today pay_now :
  Py.next_match (Loan.has_id loan_id) (loans s) = Some loan ->
  Loan.return_date loan = None ->
  Py.next_match (Book.has_id (Loan.book_id loan)) (books s) = None ->
  books (fst (return_book (Some loan_id) today pay_now s)) = books s /\
  exists loan' paid unpaid,
    Py.next_match (Loan.has_id loan_id)
      (loans (fst (return_book (Some loan_id) today pay_now s))) = Some loan' /\
    Loan.return_date loan' = Some today /\
    Loan.fine_paid loan' = Some paid /\
    Loan.unpaid_fine loan' = Some unpaid.
Proof.
  intros Hl _ Hb. split.
  - rewrite (return_book_books s loan_id loan today pay_now Hl).
    now apply mutate_first_absent.
  - destruct (return_book_loan s loan_id loan today pay_now Hl) as [Hfound _].
    destruct (returned_fields today (Settings.fine_per_day (settings s)) pay_now loan)
      as (paid & unpaid & Hdate & Hpaid & Hunpaid).
    eexists; exists paid, unpaid. split; [exact Hfound|]. auto.
Qed.

Lemma return_book_without_book_witness :
  Py.next_match (Loan.has_id 1) (loans Scenario.orphan) = Some Scenario.first_loan /\
  Loan.return_date Scenario.first_loan = None /\
  Py.next_match (Book.has_id (Loan.book_id Scenario.first_loan)) (books Scenario.orphan)
  = None /\
  books (fst (return_book (Some 1) 119 true Scenario.orphan)) = books Scenario.orphan.
Proof.
  split; [reflexivity|]. split; [reflexivity|]. split; [reflexivity|].
  exact (proj1 (return_book_without_book Scenario.orphan 1 Scenario.first_loan 119 true
                  eq_refl eq_refl eq_refl)).
Defined.


Lemma handed_out_available b :
  Book.available_copies (handed_out b) = Z.max 0 (Book.available_copies b - 1).
Proof. unfold handed_out. destruct (_ =? 0); reflexivity. Qed.

Lemma taken_back_available b :
  Book.available_copies (taken_back b) = Book.available_copies b + 1.
Proof. unfold taken_back. destruct (0 <? _); reflexivity. Qed.

(** [loan_book] once both combo boxes hold a choice and the dialog is
    accepted *)
Lemma loan_book_accepted (s : LibraryApp) member_id book_id period today :
  member_id <> EmptyString -> book_id <> EmptyString ->
  loan_book member_id book_id (Some period) today s
  = (mk (members s)
        (Py.mutate_first (Book.has_id book_id) handed_out (books s))
        (loans s ++
         [Loan.mk (Py.len (loans s) + 1) member_id book_id
            (match Py.next_match (Book.has_id book_id) (books s) with
             | Some b => Book.title b
             | None => book_id
             end)
            today (today + period) None period None None None])
        (settings s),
     Information).
Proof.
  intros Hm Hb. unfold loan_book.
  rewrite (falsy_false _ Hm), (falsy_false _ Hb). simpl.
  destruct (Py.next_match _ _) eqn:E; [reflexivity|].
  now rewrite (mutate_first_absent _ _ _ E).
Qed.



(** the book selector offers an id only if a book of that id has a copy
    left *)
Lemma update_loan_combos_offers (s : LibraryApp) book_id :
  In book_id (update_loan_combos s) ->
  book_id = EmptyString \/
  exists b, In b (books s) /\ Book.id b = book_id /\ 0 < Book.available_copies b.
Proof.
  unfold update_loan_combos. intros [H|H]; [left; now symmetry|right].
  apply in_map_iff in H. destruct H as (b & Hid & Hin).
  apply filter_In in Hin. destruct Hin as [Hin Hpos].
  exists b. repeat split; auto. now apply Z.ltb_lt.
Qed.




(** *** Loan ids *)

Lemma numbered_from_ids (ls ls' : list Loan.t) :
  map Loan.id ls' = map Loan.id ls ->
  forall n, numbered_from n ls -> numbered_from n ls'.
Proof.
  revert ls'. induction ls as [|l ls IH]; intros [|l' ls'] E n; simpl in *;
    try discriminate; auto.
  injection E as E1 E2. intros [Hn H]. split; [congruence | now apply IH].
Qed.

Lemma numbered_from_app (ls : list Loan.t) (x : Loan.t) :
  forall n, numbered_from n ls -> Loan.id x = n + Py.len ls ->
            numbered_from n (ls ++ [x]).
Proof.
  unfold Py.len. induction ls as [|l ls IH]; intros n H Hx; simpl in *.
  - split; [lia | exact I].
  - destruct H as [Hn H]. split; [exact Hn|]. apply IH; [exact H | lia].
Qed.

Lemma numbered_from_below (ls : list Loan.t) :
  forall n, numbered_from n ls ->
            forall l, In l ls -> n <= Loan.id l < n + Py.len ls.
Proof.
  unfold Py.len. induction ls as [|x ls IH]; intros n H l Hin; simpl in *.
  - contradiction.
  - destruct H as [Hn H]. destruct Hin as [->|Hin]; [lia|].
    specialize (IH (n + 1) H l Hin). lia.
Qed.

Ltac untouched :=
  repeat match goal with
         | |- context [match ?x with _ => _ end] => destruct x; simpl
         end; assumption.

(** every slot but [restore_backup] keeps the ids 1, 2, 3, ... *)
Lemma slot_keeps_numbering (a : action) (s : LibraryApp) :
  is_restore a = false ->
  numbered_from 1 (loans s) -> numbered_from 1 (loans (fst (slot a s))).
Proof.
  intros Ha H. destruct a; simpl in Ha; try discriminate; simpl.
  - unfold add_member. untouched.
  - unfold edit_member. untouched.
  - unfold delete_member. untouched.
  - unfold add_book. untouched.
  - exact H.
  - unfold delete_book. untouched.
  - unfold loan_book. destruct (_ || _); [exact H|].
    destruct period; [|exact H]. cbn [fst loans].
    apply numbered_from_app; [exact H | cbn [Loan.id]; lia].
  - unfold renew_loan. destruct row; [|exact H].
    destruct (Py.next_match _ _); [|exact H]. destruct days; [|exact H]. simpl.
    eapply numbered_from_ids; [|exact H].
    apply mutate_first_view_all. reflexivity.
  - unfold return_book. destruct row; [|exact H].
    destruct (Py.next_match _ _); [|exact H]. simpl.
    eapply numbered_from_ids; [|exact H].
    apply mutate_first_view_all. intros y. apply returned_keeps_id.
  - unfold pay_member_fines. destruct selected; [|exact H].
    destruct (Py.falsy _); [exact H|]. destruct (negb _); [exact H|].
    destruct confirm; [|exact H]. simpl.
    eapply numbered_from_ids; [|exact H].
    apply mutate_all_view. reflexivity.
  - exact H.
Qed.

Lemma run_keeps_numbering (session : list action) :
  forallb (fun a => negb (is_restore a)) session = true ->
  forall s, numbered_from 1 (loans s) -> numbered_from 1 (loans (run session s)).
Proof.
  induction session as [|a session IH]; simpl; intros Hs s H; [exact H|].
  apply andb_true_iff in Hs. destruct Hs as [Ha Hs].
  apply IH; [exact Hs|]. apply slot_keeps_numbering; [|exact H].
  now apply negb_true_iff.
Qed.

(** C8, as the code has it.  In every state that a session without
    [restore_backup] reaches from the empty application, the loan ids are
    1, 2, 3, ... and [loan_book] gives the new loan an id above all of
    them. *)
Theorem loan_book_id_fresh_without_restore (session : list action) :
  forallb (fun a => negb (is_restore a)) session = true ->
  issues_fresh_id (run session init).
Proof.
  intros Hs member_id book_id period today Hm Hb.
  rewrite (loan_book_accepted _ _ _ period today Hm Hb). cbn [fst loans].
  eexists. split; [reflexivity|]. cbn [Loan.id].
  intros l Hl.
  pose proof (numbered_from_below _ 1 (run_keeps_numbering session Hs init I) l Hl).
  lia.
Qed.

Lemma loan_book_id_fresh_without_restore_witness :
  forallb (fun a => negb (is_restore a))
    [AddMember Scenario.reader; AddBook "Divan" "Hafez" "1390" 2;
     LoanBook "10000001" "Divan_Hafez_1390" (Some 14) 100] = true /\
  issues_fresh_id
    (run [AddMember Scenario.reader; AddBook "Divan" "Hafez" "1390" 2;
          LoanBook "10000001" "Divan_Hafez_1390" (Some 14) 100] init).
Proof.
  split; [reflexivity|].
  apply (loan_book_id_fresh_without_restore
           [AddMember Scenario.reader; AddBook "Divan" "Hafez" "1390" 2;
            LoanBook "10000001" "Divan_Hafez_1390" (Some 14) 100]).
  reflexivity.
Defined.

(** C8, as the claim has it, fails: after the restore of a backup whose
    only loan has the id 2, [loan_book] assigns the id 2 again. *)
Lemma loan_book_id_repeated_after_restore :
  ~ (forall session, issues_fresh_id (run session init)).
Proof.
  intros H.
  destruct (H [RestoreBackup (Backup Scenario.backup_with_gap)]
              "10000001"%string "B1"%string 14 120
              ltac:(discriminate) ltac:(discriminate))
    as (new & Hloans & Hlt).
  simpl in Hloans. injection Hloans as <-.
  specialize (Hlt _ (or_introl eq_refl)). simpl in Hlt. lia.
Qed.
End LedgerFacts.

(** ** Loading the data file *)

Section PersistenceFacts.
Import Persistence.

(** an object is taken apart key by key: the three lists are replaced
    before [settings] is merged, whether or not the merge raises *)
Lemma load_data_object_replaces_lists (d : list (string * json)) (s : memory) :
  members (fst (load_data (Text (Some (JObj d))) s)) = dict_get d "members" (JArr []) /\
  books (fst (load_data (Text (Some (JObj d))) s)) = dict_get d "books" (JArr []) /\
  loans (fst (load_data (Text (Some (JObj d))) s)) = dict_get d "loans" (JArr []).
Proof.
  unfold load_data. cbn [members books loans settings].
  destruct (update _ _) as [merged raised]. repeat split.
Qed.

(** C7, as the code has it.  A data file that cannot be read, that is
    not JSON, or whose top-level value is not an object, makes
    [load_data] show its warning and leaves members, books, loans and
    settings as they were. *)
Theorem load_data_rejects_whole_file (file : data_file) (s : memory) :
  rejected_at_once file = true ->
  load_data file s = (s, Warning).
Proof.
  destruct file as [| |[[]|]]; simpl; intros H; try discriminate; reflexivity.
Qed.

Lemma load_data_rejects_whole_file_witness :
  rejected_at_once FileScenario.top_level_list = true /\
  load_data FileScenario.top_level_list FileScenario.loaded
  = (FileScenario.loaded, Warning).
Proof.
  split; [reflexivity|].
  apply (load_data_rejects_whole_file FileScenario.top_level_list FileScenario.loaded).
  reflexivity.
Defined.

(** C7, as the claim has it, fails: the file is an object whose
    [settings] entry is [null].  [load_data] shows its warning, and the
    member list held before is already replaced by the file's empty
    list. *)
Lemma load_data_null_settings_half_loaded :
  snd (load_data FileScenario.null_settings FileScenario.loaded) = Warning /\
  members FileScenario.loaded = JArr [JObj [("student_id"%string, JStr "10000001")]] /\
  members (fst (load_data FileScenario.null_settings FileScenario.loaded)) = JArr [] /\
  fst (load_data FileScenario.null_settings FileScenario.loaded) <> FileScenario.loaded.
Proof.
  repeat split. intros H. apply (f_equal members) in H. discriminate H.
Qed.
End PersistenceFacts.

(** * Further facts *)

(** ** Lookups in lists with one entry per key *)

Section UniqueKeys.
Context {A K : Type}.
Variables (key : A -> K) (eqb : K -> K -> bool).
Hypothesis eqb_spec : forall a b, eqb a b = true <-> a = b.

Let has (k : K) (x : A) : bool := eqb (key x) k.

Lemma next_match_in (k : K) (xs : list A) (x : A) :
  Py.next_match (has k) xs = Some x -> In x xs /\ key x = k.
Proof.
  unfold Py.next_match. intros H. apply find_some in H.
  destruct H as [Hin Hk]. split; [exact Hin | now apply eqb_spec].
Qed.

Lemma next_match_none (k : K) (xs : list A) :
  Py.next_match (has k) xs = None <-> ~ In k (map key xs).
Proof.
  unfold Py.next_match. split.
  - intros H Hin. apply in_map_iff in Hin. destruct Hin as (x & Hk & Hin).
    pose proof (find_none _ _ H x Hin) as Hx. unfold has in Hx.
    assert (eqb (key x) k = true) by now apply eqb_spec. congruence.
  - intros H. destruct (find (has k) xs) as [x|] eqn:E; [|reflexivity].
    exfalso. apply H. apply find_some in E. destruct E as [Hin Hk].
    apply in_map_iff. exists x. split; [now apply eqb_spec | exact Hin].
Qed.

(** with one entry per key, the lookup by an entry's key finds that entry *)
Lemma next_match_unique (xs : list A) (x : A) :
  NoDup (map key xs) -> In x xs -> Py.next_match (has (key x)) xs = Some x.
Proof.
  unfold Py.next_match.
  induction xs as [|y xs IH]; simpl; intros Hnd Hin; [contradiction|].
  inversion Hnd as [|? ? Hy Hxs]; subst.
  destruct Hin as [->|Hin].
  - unfold has at 1. now rewrite (proj2 (eqb_spec _ _) eq_refl).
  - destruct (has (key x) y) eqn:E.
    + exfalso. apply Hy. unfold has in E. apply eqb_spec in E. rewrite E.
      now apply in_map.
    + now apply IH.
Qed.

(** ... and a mutation of the dict found by key is a mutation of every
    dict with that key *)
Lemma mutate_first_unique (k : K) (f : A -> A) (xs : list A) :
  NoDup (map key xs) ->
  Py.mutate_first (has k) f xs = map (fun x => if has k x then f x else x) xs.
Proof.
  induction xs as [|y xs IH]; simpl; intros Hnd; [reflexivity|].
  inversion Hnd as [|? ? Hy Hxs]; subst.
  destruct (has k y) eqn:E.
  - f_equal. unfold has in E. apply eqb_spec in E. subst k.
    clear IH Hxs Hnd. induction xs as [|z xs IH]; simpl; [reflexivity|].
    destruct (has (key y) z) eqn:Ez.
    + exfalso. apply Hy. left. unfold has in Ez. now apply eqb_spec in Ez.
    + f_equal. apply IH. intros H. apply Hy. now right.
  - f_equal. now apply IH.
Qed.
End UniqueKeys.

Lemma mutate_first_ext {A : Type} (p : A -> bool) (f g : A -> A) (xs : list A) :
  (forall x, f x = g x) -> Py.mutate_first p f xs = Py.mutate_first p g xs.
Proof.
  intros H. induction xs as [|x xs IH]; simpl; [reflexivity|].
  destruct (p x); [now rewrite H | now rewrite IH].
Qed.

Lemma existsb_in_map {A : Type} (key : A -> string) (k : string) (xs : list A) :
  existsb (fun x => String.eqb (key x) k) xs = true <-> In k (map key xs).
Proof.
  rewrite existsb_exists, in_map_iff. split.
  - intros (x & Hin & E). exists x. split; [now apply String.eqb_eq | exact Hin].
  - intros (x & E & Hin). exists x. split; [exact Hin | now apply String.eqb_eq].
Qed.

Lemma NoDup_snoc {A : Type} (xs : list A) (x : A) :
  NoDup xs -> ~ In x xs -> NoDup (xs ++ [x]).
Proof.
  induction xs as [|y xs IH]; simpl; intros Hnd Hnot.
  - constructor; [intros [] | constructor].
  - inversion Hnd; subst. constructor.
    + rewrite in_app_iff. intros [H|[H|[]]]; [contradiction|].
      apply Hnot. now left.
    + apply IH; [assumption|]. intros H. apply Hnot. now right.
Qed.

(** ** Members and books *)

Section CatalogueMore.
Import App.

(** X1.  [add_member] keeps the student ids of the register distinct: a
    member whose id is already there is refused with a warning and the
    application is left as it was; any other member with an id goes to the
    end of the register. *)
Theorem add_member_keeps_ids_distinct (m : Member.t) (s : LibraryApp) :
  NoDup (map Member.student_id (members s)) ->
  NoDup (map Member.student_id (members (fst (add_member m s)))) /\
  (In (Member.student_id m) (map Member.student_id (members s)) ->
   add_member m s = (s, Warning)) /\
  (Member.student_id m <> EmptyString ->
   ~ In (Member.student_id m) (map Member.student_id (members s)) ->
   add_member m s = (set_members (members s ++ [m]) s, Information)).
Proof.
  intros Hnd. unfold add_member.
  destruct (Py.falsy (Member.student_id m)) eqn:Ef.
  - split; [exact Hnd|]. split; [reflexivity|].
    intros Hne. now rewrite (falsy_false _ Hne) in Ef.
  - destruct (existsb _ (members s)) eqn:E.
    + split; [exact Hnd|]. split; [reflexivity|].
      intros _ Hnot. exfalso. apply Hnot.
      now apply (existsb_in_map Member.student_id).
    + assert (Hnot : ~ In (Member.student_id m) (map Member.student_id (members s))).
      { intros Hin. apply (existsb_in_map Member.student_id) in Hin. congruence. }
      split; [|split; [contradiction | reflexivity]].
      simpl. rewrite map_app. simpl. now apply NoDup_snoc.
Qed.
End CatalogueMore.

Section CatalogueMore2.
Import App.

Lemma add_member_keeps_ids_distinct_witness :
  NoDup (map Member.student_id (members Scenario.two_on_shelf)) /\
  add_member Scenario.reader Scenario.two_on_shelf = (Scenario.two_on_shelf, Warning).
Proof.
  assert (Hnd : NoDup (map Member.student_id (members Scenario.two_on_shelf)))
    by (simpl; constructor; [intros [] | constructor]).
  split; [exact Hnd|].
  apply (proj1 (proj2 (add_member_keeps_ids_distinct Scenario.reader
                         Scenario.two_on_shelf Hnd))).
  simpl. now left.
Defined.

(** X2.  A member who holds a loan that is not returned cannot be deleted:
    [delete_member] shows its error and changes nothing, whatever the
    answer to the confirmation would be. *)
Theorem delete_member_refused_while_borrowing (sid : string) (confirm : bool)
  (s : LibraryApp) (l : Loan.t) :
  In l (loans s) -> Loan.member_id l = sid -> Loan.return_date l = None ->
  delete_member (Some sid) confirm s = (s, Critical).
Proof.
  intros Hin Hm Hr. unfold delete_member.
  replace (existsb _ (loans s)) with true; [reflexivity|].
  symmetry. apply existsb_exists. exists l. split; [exact Hin|].
  unfold Loan.active. rewrite Hr, Hm. now rewrite String.eqb_refl.
Qed.

Lemma delete_member_refused_while_borrowing_witness :
  In Scenario.first_loan (loans Scenario.sold_out) /\
  delete_member (Some "10000001"%string) true Scenario.sold_out
  = (Scenario.sold_out, Critical).
Proof.
  split; [now left|].
  apply (delete_member_refused_while_borrowing "10000001" true Scenario.sold_out
           Scenario.first_loan); [now left | reflexivity | reflexivity].
Defined.

(** X3.  When none of the member's loans is open, a confirmed
    [delete_member] removes every member with that student id, keeps the
    other members in their order, and touches neither books nor loans: the
    returned loans of the deleted member stay in the ledger. *)
Theorem delete_member_removes (sid : string) (s : LibraryApp) :
  (forall l, In l (loans s) -> Loan.member_id l = sid -> Loan.return_date l <> None) ->
  let s' := fst (delete_member (Some sid) true s) in
  ~ In sid (map Member.student_id (members s')) /\
  members s' = filter (fun m => negb (String.eqb (Member.student_id m) sid)) (members s) /\
  books s' = books s /\ loans s' = loans s /\
  snd (delete_member (Some sid) true s) = Silent.
Proof.
  intros Hloans. unfold delete_member.
  replace (existsb _ (loans s)) with false.
  - simpl. repeat split. intros Hin. apply in_map_iff in Hin.
    destruct Hin as (m & Hm & Hin). apply filter_In in Hin.
    destruct Hin as [_ Hne]. rewrite Hm, String.eqb_refl in Hne. discriminate.
  - symmetry. apply not_true_is_false. intros H. apply existsb_exists in H.
    destruct H as (l & Hin & Hl). apply andb_true_iff in Hl. destruct Hl as [Hm Ha].
    apply String.eqb_eq in Hm. apply (Hloans l Hin Hm).
    unfold Loan.active in Ha. destruct (Loan.return_date l); [discriminate|reflexivity].
Qed.

Lemma delete_member_removes_witness :
  members (fst (delete_member (Some "10000001"%string) true Scenario.two_on_shelf)) = [] /\
  books (fst (delete_member (Some "10000001"%string) true Scenario.two_on_shelf))
  = books Scenario.two_on_shelf.
Proof.
  pose proof (delete_member_removes "10000001" Scenario.two_on_shelf
                (fun l (H : In l []) => match H with end)) as (_ & Hm & Hb & _).
  split; [exact Hm | exact Hb].
Defined.

Lemma has_id_spec (a b : string) : String.eqb a b = true <-> a = b.
Proof. apply String.eqb_eq. Qed.

(** X4.  [add_book] keeps the book ids of the catalogue distinct: a title
    whose id is there already gets its copies added to that book, a new
    id goes to the end of the catalogue. *)
Theorem add_book_keeps_ids_distinct (title author publish : string) (copies : Z)
  (s : LibraryApp) :
  NoDup (map Book.id (books s)) ->
  NoDup (map Book.id (books (fst (add_book title author publish copies s)))).
Proof.
  intros Hnd. unfold add_book.
  destruct (_ || _); [exact Hnd|].
  destruct (Py.next_match _ (books s)) eqn:E; simpl.
  - rewrite mutate_first_view_all by reflexivity. exact Hnd.
  - rewrite map_app. simpl. apply NoDup_snoc; [exact Hnd|].
    now apply (proj1 (next_match_none Book.id String.eqb has_id_spec _ _)).
Qed.

Lemma add_book_keeps_ids_distinct_witness :
  NoDup (map Book.id (books Scenario.two_on_shelf)) /\
  NoDup (map Book.id
           (books (fst (add_book "Masnavi" "Rumi" "1385" 3 Scenario.two_on_shelf)))).
Proof.
  assert (Hnd : NoDup (map Book.id (books Scenario.two_on_shelf)))
    by (simpl; constructor; [intros [] | constructor]).
  split; [exact Hnd|].
  exact (add_book_keeps_ids_distinct "Masnavi" "Rumi" "1385" 3 Scenario.two_on_shelf Hnd).
Defined.

(** X5.  Adding copies of a title that the catalogue has (same title,
    author and publish date, hence same id) adds the copies to
    [total_copies] and to [available_copies] of that book, so the copies
    on loan stay the same number; the catalogue gets no new entry and
    the ledger is untouched. *)
Theorem add_book_adds_copies_to_existing (title author publish : string) (copies : Z)
  (s : LibraryApp) (book : Book.t) :
  title <> EmptyString -> author <> EmptyString ->
  let book_id := Py.replace_spaces (title ++ "_" ++ author ++ "_" ++ publish)%string in
  Py.next_match (Book.has_id book_id) (books s) = Some book ->
  let s' := fst (add_book title author publish copies s) in
  exists book',
    Py.next_match (Book.has_id book_id) (books s') = Some book' /\
    Book.total_copies book' = Book.total_copies book + copies /\
    Book.available_copies book' = Book.available_copies book + copies /\
    Book.total_copies book' - Book.available_copies book'
    = Book.total_copies book - Book.available_copies book /\
    List.length (books s') = List.length (books s) /\
    loans s' = loans s.
Proof.
  intros Ht Ha book_id Hb s'. subst s' book_id. unfold add_book.
  rewrite (falsy_false _ Ht), (falsy_false _ Ha). cbn [orb]. cbv zeta.
  rewrite Hb. cbn [fst books loans set_books].
  eexists. split.
  - apply mutate_first_found; [|exact Hb]. reflexivity.
  - simpl. repeat split; try lia. apply mutate_first_length.
Qed.

Lemma add_book_adds_copies_to_existing_witness :
  exists book',
    Py.next_match (Book.has_id "Hafez_Shams_1390")
      (books (fst (add_book "Hafez" "Shams" "1390" 3
                     (run Scenario.five_copies init)))) = Some book' /\
    Book.total_copies book' = 8 /\ Book.available_copies book' = 8.
Proof.
  destruct (add_book_adds_copies_to_existing "Hafez" "Shams" "1390" 3
              (run Scenario.five_copies init)
              (Book.mk "Hafez_Shams_1390" "Hafez" "Shams" "1390" 5 5 false)
              ltac:(discriminate) ltac:(discriminate) eq_refl)
    as (book' & Hfound & Htotal & Havail & _).
  exists book'. split; [exact Hfound|]. split; [exact Htotal | exact Havail].
Defined.
End CatalogueMore2.

Section CatalogueMore3.
Import App.

(** X6.  [delete_book] looks at the first book with the selected title and
    author.  While copies of it are out it shows its error and changes
    nothing.  Otherwise a confirmed deletion removes every book with that
    title and author (other editions included), keeps the rest in
    order, and leaves members and ledger alone. *)
Theorem delete_book_outcome (title author : string) (s : LibraryApp) (book : Book.t) :
  Py.next_match (same_title_author title author) (books s) = Some book ->
  (Book.available_copies book < Book.total_copies book ->
   forall confirm, delete_book (Some (title, author)) confirm s = (s, Critical)) /\
  (Book.total_copies book <= Book.available_copies book ->
   let s' := fst (delete_book (Some (title, author)) true s) in
   books s' = filter (fun b => negb (same_title_author title author b)) (books s) /\
   (forall b, In b (books s') -> same_title_author title author b = false) /\
   members s' = members s /\ loans s' = loans s).
Proof.
  intros Hb. split.
  - intros Hlt confirm. unfold delete_book. rewrite Hb.
    now rewrite (proj2 (Z.ltb_lt _ _) Hlt).
  - intros Hge. unfold delete_book. rewrite Hb.
    rewrite (proj2 (Z.ltb_ge _ _) Hge). simpl. repeat split.
    intros b Hin. apply filter_In in Hin. destruct Hin as [_ H].
    now apply negb_true_iff.
Qed.

Lemma delete_book_outcome_witness :
  Py.next_match (same_title_author "Divan" "Hafez") (books Scenario.sold_out)
  = Some Scenario.sold_out_book /\
  delete_book (Some ("Divan"%string, "Hafez"%string)) true Scenario.sold_out
  = (Scenario.sold_out, Critical).
Proof.
  split; [reflexivity|].
  apply (proj1 (delete_book_outcome "Divan" "Hafez" Scenario.sold_out
                  Scenario.sold_out_book eq_refl)).
  reflexivity.
Defined.

Lemma nth_error_mutate_at {A : Type} (f : A -> A) (xs : list A) :
  forall i x, nth_error xs i = Some x -> nth_error (Py.mutate_at i f xs) i = Some (f x).
Proof.
  induction xs as [|y xs IH]; intros [|i] x; simpl; try discriminate.
  - now intros [= ->].
  - apply IH.
Qed.

(** X7.  [save_book] never changes a book id: whatever the new title and
    author are, the edited book keeps the id it had (the comparison that
    would rewrite it is made after the new title and author are stored).
    The book takes the new title, author, publish date and total; the
    other books, the ledger and the members stay as they are. *)
Theorem save_book_keeps_ids (pos : nat) (new_title new_author new_publish : string)
  (new_total : Z) (s : LibraryApp) (book : Book.t) :
  nth_error (books s) pos = Some book ->
  let s' := fst (save_book pos new_title new_author new_publish new_total s) in
  map Book.id (books s') = map Book.id (books s) /\
  (exists book',
     nth_error (books s') pos = Some book' /\
     Book.id book' = Book.id book /\
     Book.title book' = new_title /\ Book.author book' = new_author /\
     Book.publish_date book' = new_publish /\ Book.total_copies book' = new_total) /\
  (forall i, i <> pos -> nth_error (books s') i = nth_error (books s) i) /\
  loans s' = loans s /\ members s' = members s.
Proof.
  intros Hb. cbn [save_book fst books loans members set_books].
  split; [|split; [|split; [|split; reflexivity]]].
  - apply mutate_at_view. intros b. now rewrite save_book_dict_spelled_out.
  - eexists. split; [exact (nth_error_mutate_at _ _ _ _ Hb)|].
    rewrite save_book_dict_spelled_out. repeat split.
  - intros i Hi. clear Hb. revert i pos Hi.
    induction (books s) as [|b bs IH]; intros [|i] [|p] Hi; cbn; try reflexivity.
    + contradiction.
    + apply IH. congruence.
Qed.

Lemma save_book_keeps_ids_witness :
  nth_error (books Scenario.two_on_shelf) 0
  = Some (Book.mk "B1" "Divan" "Hafez" "1390" 2 2 false) /\
  map Book.id (books (fst (save_book 0 "Ghazals" "Saadi" "1391" 2 Scenario.two_on_shelf)))
  = ["B1"%string].
Proof.
  split; [reflexivity|].
  exact (proj1 (save_book_keeps_ids 0 "Ghazals" "Saadi" "1391" 2 Scenario.two_on_shelf
                  (Book.mk "B1" "Divan" "Hafez" "1390" 2 2 false) eq_refl)).
Defined.
End CatalogueMore3.

(** ** More on the ledger *)

Section LedgerMore.
Import App.

(** X8.  Two renewals add up: renewing a loan by [d1] days and then by
    [d2] days leaves the application in the state that one renewal by
    [d1 + d2] days gives. *)
Theorem renew_loan_twice (loan_id d1 d2 : Z) (s : LibraryApp) :
  fst (renew_loan (Some loan_id) (Some d2) (fst (renew_loan (Some loan_id) (Some d1) s)))
  = fst (renew_loan (Some loan_id) (Some (d1 + d2)) s).
Proof.
  unfold renew_loan.
  destruct (Py.next_match (Loan.has_id loan_id) (loans s)) as [loan|] eqn:E.
  - cbn [fst loans set_loans].
    rewrite (mutate_first_found (Loan.has_id loan_id)
               (fun l => Loan.set_renewal (Loan.due_date l + d1) (Loan.loan_period l + d1) l)
               (loans s) loan (fun y => eq_refl) E).
    unfold set_loans. cbn [fst loans members books settings].
    rewrite mutate_first_twice by reflexivity.
    f_equal. apply mutate_first_ext. intros l.
    unfold Loan.set_renewal. simpl. f_equal; lia.
  - simpl. now rewrite E.
Qed.

Lemma owes_settled (member_id : string) (l : Loan.t) :
  (if owes member_id l then owes member_id (Loan.set_fine true 0 l)
   else owes member_id l) = false.
Proof.
  destruct (owes member_id l) eqn:E; [|reflexivity].
  unfold owes. simpl. now rewrite andb_false_r.
Qed.

(** X9.  After a confirmed [pay_member_fines] no loan of that member owes
    anything, so a second call finds nothing to settle and changes
    nothing; the payment keeps every loan in its place with its id, leaves
    the loans of other members as they were and does not touch the
    books. *)
Theorem pay_member_fines_settles (member_id : string) (s : LibraryApp) :
  member_id <> EmptyString ->
  let s' := fst (pay_member_fines (Some member_id) true s) in
  existsb (owes member_id) (loans s') = false /\
  pay_member_fines (Some member_id) true s' = (s', Information) /\
  map Loan.id (loans s') = map Loan.id (loans s) /\
  (forall l, In l (loans s) -> Loan.member_id l <> member_id -> In l (loans s')) /\
  books s' = books s.
Proof.
  intros Hne s'.
  assert (Hs' : existsb (owes member_id) (loans s') = false).
  { subst s'. unfold pay_member_fines. rewrite (falsy_false _ Hne).
    destruct (existsb _ (loans s)) eqn:E; simpl; [|exact E].
    unfold Py.mutate_all. clear E.
    induction (loans s) as [|l ls IH]; simpl; [reflexivity|].
    rewrite IH, orb_false_r.
    pose proof (owes_settled member_id l) as H.
    destruct (owes member_id l) eqn:El; [exact H | exact El]. }
  split; [exact Hs'|]. split.
  - unfold pay_member_fines at 1. now rewrite (falsy_false _ Hne), Hs'.
  - subst s'. unfold pay_member_fines. rewrite (falsy_false _ Hne).
    destruct (existsb _ (loans s)); simpl; repeat split; auto.
    + now apply mutate_all_view.
    + intros l Hin Hm. unfold Py.mutate_all. apply in_map_iff. exists l.
      split; [|exact Hin].
      unfold owes. replace (String.eqb (Loan.member_id l) member_id) with false;
        [reflexivity|]. symmetry. now apply String.eqb_neq.
Qed.

Lemma pay_member_fines_settles_witness :
  existsb (owes "10000001")
    (loans (fst (return_book (Some 1) 119 false Scenario.sold_out))) = true /\
  existsb (owes "10000001")
    (loans (fst (pay_member_fines (Some "10000001"%string) true
                   (fst (return_book (Some 1) 119 false Scenario.sold_out))))) = false.
Proof.
  split; [reflexivity|].
  exact (proj1 (pay_member_fines_settles "10000001"
                  (fst (return_book (Some 1) 119 false Scenario.sold_out))
                  ltac:(discriminate))).
Defined.

Lemma selector_exact (s : LibraryApp) (book_id : string) :
  NoDup (map Book.id (books s)) ->
  book_id <> EmptyString ->
  In book_id (update_loan_combos s) <->
  exists b, Py.next_match (Book.has_id book_id) (books s) = Some b /\
            0 < Book.available_copies b.
Proof.
  intros Hnd Hne. split.
  - intros Hin. destruct (update_loan_combos_offers s book_id Hin) as [E|H];
      [contradiction|].
    destruct H as (b & Hb & Hid & Hpos). exists b. split; [|exact Hpos].
    subst book_id.
    exact (next_match_unique Book.id String.eqb has_id_spec (books s) b Hnd Hb).
  - intros (b & Hb & Hpos).
    destruct (next_match_in Book.id String.eqb has_id_spec _ _ _ Hb) as [Hin Hid].
    unfold update_loan_combos. right. apply in_map_iff. exists b.
    split; [exact Hid|]. apply filter_In. split; [exact Hin|]. now apply Z.ltb_lt.
Qed.

(** X10.  With one book per id, the book selector offers an id exactly
    when the book that [loan_book] will find under it has a copy left. *)
Theorem update_loan_combos_exact (s : LibraryApp) (book_id : string) :
  NoDup (map Book.id (books s)) ->
  book_id <> EmptyString ->
  In book_id (update_loan_combos s) <->
  exists b, Py.next_match (Book.has_id book_id) (books s) = Some b /\
            0 < Book.available_copies b.
Proof. exact (selector_exact s book_id). Qed.

Lemma update_loan_combos_exact_witness :
  NoDup (map Book.id (books Scenario.two_on_shelf)) /\
  In "B1"%string (update_loan_combos Scenario.two_on_shelf).
Proof.
  assert (Hnd : NoDup (map Book.id (books Scenario.two_on_shelf)))
    by (simpl; constructor; [intros [] | constructor]).
  split; [exact Hnd|].
  apply (proj2 (update_loan_combos_exact Scenario.two_on_shelf "B1" Hnd
                  ltac:(discriminate))).
  eexists. split; [reflexivity | reflexivity].
Defined.
End LedgerMore.

(** ** Dashboard and tables *)

Section ReportFacts.
Import App Reports.

Lemma fold_add_shift (xs : list Z) (a : Z) : fold_left Z.add xs a = a + sum xs.
Proof.
  unfold sum. revert a. induction xs as [|x xs IH]; intros a; simpl; [lia|].
  rewrite (IH (a + x)), (IH x). lia.
Qed.

Lemma sum_cons (x : Z) (xs : list Z) : sum (x :: xs) = x + sum xs.
Proof. unfold sum at 1. simpl. apply fold_add_shift. Qed.

Lemma sum_after_mutation {A : Type} (p : A -> bool) (f : A -> A) (g : A -> Z)
  (xs : list A) (x : A) :
  Py.next_match p xs = Some x ->
  sum (map g (Py.mutate_first p f xs)) = sum (map g xs) - g x + g (f x).
Proof.
  unfold Py.next_match.
  induction xs as [|y xs IH]; cbn [find Py.mutate_first map]; [discriminate|].
  destruct (p y) eqn:E.
  - intros [= ->]. cbn [map]. rewrite !sum_cons. ring.
  - intros H. cbn [map]. rewrite !sum_cons, (IH H). ring.
Qed.

Ltac forget_sums :=
  repeat match goal with
         | |- context [sum ?xs] => generalize (sum xs); intro
         end.

Lemma len_cons {A : Type} (x : A) (xs : list A) : Py.len (x :: xs) = 1 + Py.len xs.
Proof. unfold Py.len. cbn [List.length]. lia. Qed.

(** how many entries pass a test, before and after a mutation of the
    found one *)
Lemma count_after_mutation {A : Type} (p q : A -> bool) (f : A -> A)
  (xs : list A) (x : A) :
  Py.next_match p xs = Some x ->
  Py.len (filter q (Py.mutate_first p f xs))
  = Py.len (filter q xs) - Z.b2z (q x) + Z.b2z (q (f x)).
Proof.
  unfold Py.next_match.
  induction xs as [|y xs IH]; cbn [find Py.mutate_first filter]; [discriminate|].
  destruct (p y) eqn:E.
  - intros [= ->]. cbn [filter].
    destruct (q x), (q (f x)); rewrite ?len_cons; unfold Z.b2z; lia.
  - intros H. cbn [filter]. destruct (q y); rewrite ?len_cons, (IH H); lia.
Qed.

Lemma returned_inactive today fpd pay_now l :
  Loan.active (returned today fpd pay_now l) = false.
Proof. unfold returned. destruct (0 <? _); [destruct pay_now|]; reflexivity. Qed.

(** X11.  A loan on a book that the selector offers moves the dashboard
    by one: one more active loan, one copy less available, the same
    numbers of members and books. *)
Theorem loan_book_moves_counters (s : LibraryApp) member_id book_id period today :
  NoDup (map Book.id (books s)) ->
  member_id <> EmptyString -> book_id <> EmptyString ->
  In book_id (update_loan_combos s) ->
  let before := update_stats s in
  let after := update_stats (fst (loan_book member_id book_id (Some period) today s)) in
  lbl_members_count after = lbl_members_count before /\
  lbl_books_count after = lbl_books_count before /\
  lbl_loans_count after = lbl_loans_count before + 1 /\
  lbl_available_count after = lbl_available_count before - 1.
Proof.
  intros Hnd Hm Hb Hin.
  destruct (proj1 (selector_exact s book_id Hnd Hb) Hin) as (b & Hfound & Hpos).
  rewrite (loan_book_accepted s _ _ period today Hm Hb).
  unfold update_stats. cbn [fst members books loans lbl_members_count lbl_books_count
                             lbl_loans_count lbl_available_count].
  repeat split.
  - unfold Py.len. now rewrite mutate_first_length.
  - rewrite filter_app. simpl. apply len_app.
  - rewrite (sum_after_mutation _ _ _ _ b Hfound), handed_out_available.
    forget_sums. lia.
Qed.

Lemma loan_book_moves_counters_witness :
  In "B1"%string (update_loan_combos Scenario.two_on_shelf) /\
  lbl_loans_count
    (update_stats (fst (loan_book "10000001" "B1" (Some 14) 0 Scenario.two_on_shelf)))
  = lbl_loans_count (update_stats Scenario.two_on_shelf) + 1 /\
  lbl_available_count
    (update_stats (fst (loan_book "10000001" "B1" (Some 14) 0 Scenario.two_on_shelf)))
  = lbl_available_count (update_stats Scenario.two_on_shelf) - 1.
Proof.
  assert (Hin : In "B1"%string (update_loan_combos Scenario.two_on_shelf))
    by (right; now left).
  split; [exact Hin|].
  destruct (loan_book_moves_counters Scenario.two_on_shelf "10000001" "B1" 14 0)
    as (_ & _ & Hloans & Havail).
  - simpl. constructor; [intros [] | constructor].
  - discriminate.
  - discriminate.
  - exact Hin.
  - split; [exact Hloans | exact Havail].
Defined.

(** X12.  The return of an active loan whose book is in the catalogue
    moves the dashboard back by one: one active loan less, one copy more
    available, the same numbers of members and books. *)
Theorem return_book_moves_counters (s : LibraryApp) loan_id loan book today pay_now :
  Py.next_match (Loan.has_id loan_id) (loans s) = Some loan ->
  Loan.return_date loan = None ->
  Py.next_match (Book.has_id (Loan.book_id loan)) (books s) = Some book ->
  let before := update_stats s in
  let after := update_stats (fst (return_book (Some loan_id) today pay_now s)) in
  lbl_members_count after = lbl_members_count before /\
  lbl_books_count after = lbl_books_count before /\
  lbl_loans_count after = lbl_loans_count before - 1 /\
  lbl_available_count after = lbl_available_count before + 1.
Proof.
  intros Hl Ha Hb. unfold return_book. rewrite Hl, Hb.
  unfold update_stats. cbn [fst members books loans lbl_members_count lbl_books_count
                             lbl_loans_count lbl_available_count].
  repeat split.
  - unfold Py.len. now rewrite mutate_first_length.
  - rewrite (count_after_mutation _ _ _ _ loan Hl), returned_inactive.
    unfold Loan.active at 2. rewrite Ha. simpl. lia.
  - rewrite (sum_after_mutation _ _ _ _ book Hb), taken_back_available.
    forget_sums. lia.
Qed.

Lemma return_book_moves_counters_witness :
  Py.next_match (Loan.has_id 1) (loans Scenario.sold_out) = Some Scenario.first_loan /\
  lbl_loans_count (update_stats (fst (return_book (Some 1) 119 false Scenario.sold_out)))
  = lbl_loans_count (update_stats Scenario.sold_out) - 1 /\
  lbl_available_count (update_stats (fst (return_book (Some 1) 119 false Scenario.sold_out)))
  = lbl_available_count (update_stats Scenario.sold_out) + 1.
Proof.
  split; [reflexivity|].
  destruct (return_book_moves_counters Scenario.sold_out 1 Scenario.first_loan
              Scenario.sold_out_book 119 false eq_refl eq_refl eq_refl)
    as (_ & _ & Hloans & Havail).
  split; [exact Hloans | exact Havail].
Defined.

(** X13.  The overdue table and [return_book] agree on the fine.  An
    active loan past its due date has a row in the table with
    [today - due_date >= 1] days and the fine [days * fine_per_day]; when
    the loan is returned that day and the payment is deferred, exactly
    the fine of the row is stored as [unpaid_fine]. *)
Theorem overdue_fine_is_return_fine (s : LibraryApp) loan_id loan today :
  Py.next_match (Loan.has_id loan_id) (loans s) = Some loan ->
  Loan.return_date loan = None ->
  Loan.due_date loan < today ->
  0 <= Settings.fine_per_day (settings s) ->
  exists row loan',
    In row (update_overdue_table today s) /\
    late_title row = Loan.book_title loan /\
    late_days row = today - Loan.due_date loan /\
    1 <= late_days row /\
    late_fine row = late_days row * Settings.fine_per_day (settings s) /\
    Py.next_match (Loan.has_id loan_id)
      (loans (fst (return_book (Some loan_id) today false s))) = Some loan' /\
    Loan.unpaid_fine loan' = Some (late_fine row).
Proof.
  intros Hl Ha Hlate Hfpd.
  destruct (return_book_loan s loan_id loan today false Hl) as [Hfound _].
  eexists. eexists. split; [|split; [|split; [|split; [|split; [|split]]]]].
  6: exact Hfound.
  - unfold update_overdue_table. apply in_flat_map. exists loan. split.
    + unfold Py.next_match in Hl. now apply find_some in Hl.
    + unfold Loan.active. rewrite Ha.
      rewrite (proj2 (Z.ltb_lt _ _) Hlate). now left.
  - reflexivity.
  - reflexivity.
  - simpl. lia.
  - reflexivity.
  - unfold returned, fine_of. rewrite days_overdue_max.
    replace (Z.max 0 (today - Loan.due_date loan)) with (today - Loan.due_date loan) by lia.
    simpl. destruct (Z.ltb_spec 0 ((today - Loan.due_date loan)
                                   * Settings.fine_per_day (settings s))) as [H|H].
    + reflexivity.
    + simpl. f_equal. nia.
Qed.

Lemma overdue_fine_is_return_fine_witness :
  Py.next_match (Loan.has_id 1) (loans Scenario.sold_out) = Some Scenario.first_loan /\
  Loan.due_date Scenario.first_loan < 119 /\
  exists row, In row (update_overdue_table 119 Scenario.sold_out) /\
              late_days row = 5 /\ late_fine row = 5000.
Proof.
  split; [reflexivity|]. split; [reflexivity|].
  destruct (overdue_fine_is_return_fine Scenario.sold_out 1 Scenario.first_loan 119
              eq_refl eq_refl eq_refl ltac:(discriminate))
    as (row & _ & Hin & _ & Hdays & _ & Hfine & _).
  exists row. split; [exact Hin|]. split; [exact Hdays|].
  rewrite Hfine, Hdays. reflexivity.
Defined.

Lemma absent_id_filtered (k : Z) (ids : list Z) :
  ~ In k ids -> filter (fun i => negb (i =? k)) ids = ids.
Proof.
  induction ids as [|i ids IH]; simpl; intros H; [reflexivity|].
  destruct (Z.eqb_spec i k) as [->|Hne]; simpl.
  - exfalso. apply H. now left.
  - f_equal. apply IH. intros Hin. apply H. now right.
Qed.

Lemma active_ids_in (ls : list Loan.t) (k : Z) :
  In k (map Loan.id (filter Loan.active ls)) -> In k (map Loan.id ls).
Proof.
  rewrite !in_map_iff. intros (l & Hk & Hin). apply filter_In in Hin.
  exists l. tauto.
Qed.

(** X14.  When loan ids are distinct, a return takes exactly the returned
    loan out of the table of active loans: the ids shown afterwards are
    the ids shown before without the returned one, in the same order. *)
Theorem return_book_clears_row (s : LibraryApp) loan_id today pay_now :
  NoDup (map Loan.id (loans s)) ->
  map shown_id (load_active_loans (fst (return_book (Some loan_id) today pay_now s)))
  = filter (fun i => negb (i =? loan_id)) (map shown_id (load_active_loans s)).
Proof.
  intros Hnd. unfold load_active_loans. rewrite !map_map. cbn [shown_id].
  assert (Hloans : loans (fst (return_book (Some loan_id) today pay_now s))
                   = Py.mutate_first (Loan.has_id loan_id)
                       (returned today (Settings.fine_per_day (settings s)) pay_now)
                       (loans s)).
  { unfold return_book.
    destruct (Py.next_match _ (loans s)) eqn:E; [reflexivity|].
    simpl. symmetry. now apply mutate_first_absent. }
  rewrite Hloans. clear Hloans.
  induction (loans s) as [|l ls IH]; [reflexivity|].
  inversion Hnd as [|? ? Hl Hls]; subst.
  cbn [Py.mutate_first]. unfold Loan.has_id at 1.
  destruct (Z.eqb_spec (Loan.id l) loan_id) as [E|E].
  - cbn [filter]. rewrite returned_inactive.
    assert (Hrest : filter (fun i => negb (i =? loan_id))
                      (map Loan.id (filter Loan.active ls))
                    = map Loan.id (filter Loan.active ls)).
    { apply absent_id_filtered. intros H. apply Hl. rewrite E.
      now apply active_ids_in. }
    destruct (Loan.active l); cbn [map filter].
    + rewrite (proj2 (Z.eqb_eq _ _) E). cbn [negb]. symmetry. exact Hrest.
    + symmetry. exact Hrest.
  - cbn [filter]. destruct (Loan.active l); cbn [map filter].
    + rewrite (proj2 (Z.eqb_neq _ _) E). cbn [negb]. f_equal. now apply IH.
    + now apply IH.
Qed.

Lemma return_book_clears_row_witness :
  NoDup (map Loan.id (loans Scenario.sold_out)) /\
  map shown_id (load_active_loans Scenario.sold_out) = [1] /\
  map shown_id (load_active_loans (fst (return_book (Some 1) 119 false Scenario.sold_out)))
  = [].
Proof.
  assert (Hnd : NoDup (map Loan.id (loans Scenario.sold_out)))
    by (simpl; constructor; [intros [] | constructor]).
  split; [exact Hnd|]. split; [reflexivity|].
  exact (return_book_clears_row Scenario.sold_out 1 119 false Hnd).
Defined.
End ReportFacts.

(** ** The consistency check *)

Section ConsistencyFacts.
Import App Generator Desk.

Lemma get_set_same (d : counts) (k : string) (n default : Z) :
  get (set k n d) k default = n.
Proof.
  induction d as [|[k' m] d IH]; simpl.
  - now rewrite String.eqb_refl.
  - destruct (String.eqb k' k) eqn:E; simpl; rewrite E; [reflexivity | exact IH].
Qed.

Lemma get_set_other (d : counts) (k k' : string) (n default : Z) :
  k' <> k -> get (set k n d) k' default = get d k' default.
Proof.
  intros Hne. induction d as [|[j m] d IH]; simpl.
  - replace (String.eqb k k') with false; [reflexivity|].
    symmetry. apply String.eqb_neq. congruence.
  - destruct (String.eqb j k) eqn:E; simpl.
    + apply String.eqb_eq in E. subst j.
      replace (String.eqb k k') with false; [reflexivity|].
      symmetry. apply String.eqb_neq. congruence.
    + destruct (String.eqb j k'); [reflexivity | exact IH].
Qed.

Lemma on_loan_cons (k : string) (l : Loan.t) (ls : list Loan.t) :
  on_loan k (l :: ls)
  = Z.b2z (Loan.active l && String.eqb (Loan.book_id l) k) + on_loan k ls.
Proof.
  unfold on_loan. cbn [filter].
  destruct (_ && _); rewrite ?len_cons; unfold Z.b2z; lia.
Qed.

Lemma on_loan_nonneg (k : string) (ls : list Loan.t) : 0 <= on_loan k ls.
Proof. unfold on_loan, Py.len. lia. Qed.

(** the dict built by the loop holds, under each book id, the number of
    open loans on it *)
Lemma active_loans_per_book_counts (ls : list Loan.t) (k : string) :
  get (active_loans_per_book ls) k 0 = on_loan k ls.
Proof.
  unfold active_loans_per_book.
  assert (H : forall d, get (fold_left
                (fun d loan =>
                   if Loan.active loan
                   then set (Loan.book_id loan) (get d (Loan.book_id loan) 0 + 1) d
                   else d) ls d) k 0
              = get d k 0 + on_loan k ls).
  { induction ls as [|l ls IH]; intros d; cbn [fold_left].
    - unfold on_loan, Py.len. simpl. lia.
    - rewrite IH, on_loan_cons. destruct (Loan.active l); cbn [andb].
      + destruct (String.eqb_spec (Loan.book_id l) k) as [->|Hne].
        * rewrite get_set_same. unfold Z.b2z. lia.
        * rewrite get_set_other by congruence. unfold Z.b2z. lia.
      + unfold Z.b2z. lia. }
  rewrite H. simpl. lia.
Qed.

Lemma check_zero_iff (bs : list Book.t) (ls : list Loan.t) :
  book_loan_consistency_check bs ls = 0 <->
  Forall (fun b => Book.total_copies b - on_loan (Book.id b) ls = Book.available_copies b)
         bs.
Proof.
  unfold book_loan_consistency_check.
  set (step := fun (inconsistencies : Z) (book : Book.t) => _).
  assert (Hmono : forall xs n, n <= fold_left step xs n).
  { induction xs as [|b xs IH]; intros n; cbn [fold_left]; [lia|].
    specialize (IH (step n b)). subst step. cbv beta in *.
    destruct (negb _); lia. }
  assert (H : forall xs n,
             fold_left step xs n = n <->
             Forall (fun b => Book.total_copies b - on_loan (Book.id b) ls
                              = Book.available_copies b) xs).
  { induction xs as [|b xs IH]; intros n; cbn [fold_left].
    - split; [constructor | reflexivity].
    - pose proof (Hmono xs (step n b)) as Hm.
      assert (Hstep : step n b
                      = if Book.total_copies b - on_loan (Book.id b) ls
                           =? Book.available_copies b then n else n + 1).
      { subst step. cbv beta. rewrite active_loans_per_book_counts.
        now destruct (_ =? _). }
      destruct (Z.eqb_spec (Book.total_copies b - on_loan (Book.id b) ls)
                           (Book.available_copies b)) as [Eok|Ebad].
      + rewrite Hstep in *. rewrite IH. split.
        * intros Hxs. now constructor.
        * intros Hall. now inversion Hall.
      + rewrite Hstep in *. split.
        * intros Hfold. lia.
        * intros Hall. inversion Hall. contradiction. }
  apply H.
Qed.

(** X15.  The consistency check of the data generator reports no
    inconsistency exactly when every book has
    [available_copies = total_copies -] the number of open loans that
    carry its id. *)
Theorem book_loan_consistency_check_zero (bs : list Book.t) (ls : list Loan.t) :
  book_loan_consistency_check bs ls = 0 <->
  Forall (fun b => Book.total_copies b - on_loan (Book.id b) ls = Book.available_copies b)
         bs.
Proof. exact (check_zero_iff bs ls). Qed.

Lemma book_loan_consistency_check_zero_witness :
  book_loan_consistency_check (books Scenario.sold_out) (loans Scenario.sold_out) = 0 /\
  Forall (fun b => Book.total_copies b - on_loan (Book.id b) (loans Scenario.sold_out)
                   = Book.available_copies b) (books Scenario.sold_out).
Proof.
  split; [reflexivity|].
  apply (proj1 (book_loan_consistency_check_zero (books Scenario.sold_out)
                  (loans Scenario.sold_out))).
  reflexivity.
Defined.
End ConsistencyFacts.

(** ** Sessions at the desk *)

Section DeskFacts.
Import App Generator Desk.

Let view (l : Loan.t) : bool * string := (Loan.active l, Loan.book_id l).

Lemma on_loan_view (k : string) (ls ls' : list Loan.t) :
  map view ls' = map view ls -> on_loan k ls' = on_loan k ls.
Proof.
  revert ls'. induction ls as [|l ls IH]; intros [|l' ls'] E; try discriminate;
    [reflexivity|].
  cbn [map] in E. unfold view in E. injection E as Ea Eb Els.
  rewrite !on_loan_cons, Ea, Eb. f_equal. now apply IH.
Qed.

Lemma in_catalogue_view (ids : list string) (ls ls' : list Loan.t) :
  map view ls' = map view ls ->
  Forall (fun l => Loan.active l = true -> In (Loan.book_id l) ids) ls ->
  Forall (fun l => Loan.active l = true -> In (Loan.book_id l) ids) ls'.
Proof.
  revert ls'. induction ls as [|l ls IH]; intros [|l' ls'] E H; try discriminate;
    [constructor|].
  cbn [map] in E. unfold view in E. injection E as Ea Eb Els.
  inversion H; subst. constructor; [now rewrite Ea, Eb | now apply IH].
Qed.

(** what [consistent] says, with the check spelled out *)
Lemma consistent_spelled_out (s : LibraryApp) :
  consistent s <->
  NoDup (map Book.id (books s)) /\
  Forall (fun b => Book.total_copies b - on_loan (Book.id b) (loans s)
                   = Book.available_copies b) (books s) /\
  Forall (fun b => 0 <= Book.available_copies b) (books s) /\
  Forall (fun l => Loan.active l = true -> In (Loan.book_id l) (map Book.id (books s)))
         (loans s).
Proof. unfold consistent. rewrite check_zero_iff. tauto. Qed.

Lemma consistent_same_books (s s' : LibraryApp) :
  books s' = books s -> map view (loans s') = map view (loans s) ->
  consistent s -> consistent s'.
Proof.
  intros Hb Hl. rewrite !consistent_spelled_out, Hb.
  intros (Hnd & Hok & Hpos & Hcat). repeat split; auto.
  - eapply Forall_impl; [|exact Hok]. intros b Hb'. cbv beta in *.
    now rewrite (on_loan_view _ _ _ Hl).
  - now apply (in_catalogue_view _ _ _ Hl).
Qed.

Lemma on_loan_app (k : string) (ls : list Loan.t) (l : Loan.t) :
  on_loan k (ls ++ [l])
  = on_loan k ls + Z.b2z (Loan.active l && String.eqb (Loan.book_id l) k).
Proof.
  induction ls as [|x ls IH]; cbn [app].
  - rewrite on_loan_cons. unfold on_loan, Py.len. simpl. lia.
  - rewrite !on_loan_cons, IH. lia.
Qed.

Lemma unique_book (bs : list Book.t) (x y : Book.t) :
  NoDup (map Book.id bs) -> In x bs -> In y bs -> Book.id x = Book.id y -> x = y.
Proof.
  intros Hnd Hx Hy E.
  pose proof (next_match_unique Book.id String.eqb has_id_spec bs x Hnd Hx) as H1.
  pose proof (next_match_unique Book.id String.eqb has_id_spec bs y Hnd Hy) as H2.
  cbv beta zeta in H1, H2. rewrite E in H1. rewrite H1 in H2. now injection H2.
Qed.

Lemma mutate_book_unique (k : string) (f : Book.t -> Book.t) (bs : list Book.t) :
  NoDup (map Book.id bs) ->
  Py.mutate_first (Book.has_id k) f bs
  = map (fun b => if Book.has_id k b then f b else b) bs.
Proof. exact (mutate_first_unique Book.id String.eqb has_id_spec k f bs). Qed.

(** books rewritten under one id, loans changed by [delta] open loans on
    that id: what each rewritten book has to satisfy *)
Lemma consistent_after (s s' : LibraryApp) (k : string) (f : Book.t -> Book.t)
  (delta : Z) :
  consistent s ->
  books s' = Py.mutate_first (Book.has_id k) f (books s) ->
  (forall b, Book.id (f b) = Book.id b) ->
  (forall j, on_loan j (loans s') = on_loan j (loans s)
                                    + if String.eqb j k then delta else 0) ->
  (forall b, In b (books s) -> Book.id b = k ->
             Book.total_copies (f b) - Book.available_copies (f b)
             = Book.total_copies b - Book.available_copies b + delta /\
             0 <= Book.available_copies (f b)) ->
  Forall (fun l => Loan.active l = true -> In (Loan.book_id l) (map Book.id (books s)))
         (loans s') ->
  consistent s'.
Proof.
  rewrite !consistent_spelled_out.
  intros (Hnd & Hok & Hpos & _) Hb Hid Hloans Hf Hcat.
  assert (Hids : map Book.id (books s') = map Book.id (books s))
    by (rewrite Hb; now apply mutate_first_view_all).
  rewrite Hids. split; [exact Hnd|]. split; [|split; [|exact Hcat]].
  - rewrite Hb, (mutate_book_unique _ _ _ Hnd). apply Forall_map.
    apply Forall_forall. intros b Hin.
    pose proof (proj1 (Forall_forall _ _) Hok b Hin) as Hb_ok. cbv beta in Hb_ok.
    unfold Book.has_id. destruct (String.eqb_spec (Book.id b) k) as [E|E].
    + rewrite Hid, Hloans, E, String.eqb_refl.
      destruct (Hf b Hin E) as [Hdiff _]. rewrite E in Hb_ok. lia.
    + rewrite Hloans. replace (String.eqb (Book.id b) k) with false
        by (symmetry; now apply String.eqb_neq). lia.
  - rewrite Hb, (mutate_book_unique _ _ _ Hnd). apply Forall_map.
    apply Forall_forall. intros b Hin.
    unfold Book.has_id. destruct (String.eqb_spec (Book.id b) k) as [E|E].
    + now destruct (Hf b Hin E).
    + exact (proj1 (Forall_forall _ _) Hpos b Hin).
Qed.

Lemma falsy_true_or_not (x : string) : Py.falsy x = false -> x <> EmptyString.
Proof. unfold Py.falsy. intros H. now apply String.eqb_neq. Qed.

Lemma on_loan_zero (ids : list string) (k : string) (ls : list Loan.t) :
  Forall (fun l => Loan.active l = true -> In (Loan.book_id l) ids) ls ->
  ~ In k ids -> on_loan k ls = 0.
Proof.
  intros H Hk. induction H as [|l ls Hl Hls IH]; [reflexivity|].
  rewrite on_loan_cons, IH.
  destruct (Loan.active l) eqn:Ea; cbn [andb Z.b2z]; [|reflexivity].
  destruct (String.eqb_spec (Loan.book_id l) k) as [E|E]; [|reflexivity].
  exfalso. apply Hk. rewrite <- E. now apply Hl.
Qed.

Lemma handed_out_fields (b : Book.t) :
  Book.id (handed_out b) = Book.id b /\
  Book.total_copies (handed_out b) = Book.total_copies b.
Proof. unfold handed_out. destruct (_ =? 0); split; reflexivity. Qed.

Lemma taken_back_fields (b : Book.t) :
  Book.id (taken_back b) = Book.id b /\
  Book.total_copies (taken_back b) = Book.total_copies b.
Proof. unfold taken_back. destruct (0 <? _); split; reflexivity. Qed.

Ltac same_books s :=
  repeat match goal with
         | |- context [match ?x with _ => _ end] => destruct x; cbn [fst]
         end;
  try assumption;
  (apply (consistent_same_books s); [reflexivity | reflexivity | assumption]).

(** one slot at the desk keeps the state consistent *)
Lemma slot_keeps_consistent (a : action) (s : LibraryApp) :
  consistent s -> at_the_desk a s = true -> consistent (fst (slot a s)).
Proof.
  intros Hc Ha.
  pose proof (proj1 (consistent_spelled_out s) Hc) as (Hnd & Hok & Hpos & Hcat).
  destruct a; cbn [at_the_desk] in Ha; try discriminate; cbn [slot].
  - unfold add_member. same_books s.
  - unfold edit_member. same_books s.
  - unfold delete_member. same_books s.
  - (* add_book *)
    apply andb_true_iff in Ha. destruct Ha as [Hlow _]. apply Z.leb_le in Hlow.
    unfold add_book. destruct (_ || _); [exact Hc|].
    destruct (Py.next_match _ (books s)) as [b0|] eqn:E; cbn [fst].
    + eapply (consistent_after s _ _ _ 0 Hc); [reflexivity | reflexivity | | | ].
      * intros j. cbn [loans set_books]. destruct (String.eqb j _); lia.
      * intros b Hin _. cbn [Book.set_copies Book.total_copies Book.available_copies].
        pose proof (proj1 (Forall_forall _ _) Hpos b Hin). cbv beta in *. lia.
      * exact Hcat.
    + apply consistent_spelled_out. cbn [books loans set_books].
      rewrite map_app. cbn [map Book.id].
      assert (Hnew : ~ In (Py.replace_spaces (title ++ "_" ++ author ++ "_" ++ publish))
                        (map Book.id (books s)))
        by now apply (proj1 (next_match_none Book.id String.eqb has_id_spec _ _)).
      split; [now apply NoDup_snoc|]. split; [|split].
      * apply Forall_app. split; [exact Hok|]. constructor; [|constructor].
        cbn [Book.total_copies Book.available_copies Book.id].
        rewrite (on_loan_zero _ _ _ Hcat Hnew). lia.
      * apply Forall_app. split; [exact Hpos|]. constructor; [|constructor].
        cbn [Book.available_copies]. lia.
      * eapply Forall_impl; [|exact Hcat]. intros l Hl Hactive.
        apply in_or_app. left. now apply Hl.
  - (* loan_book *)
    apply existsb_exists in Ha. destruct Ha as (offered & Hin & E).
    apply String.eqb_eq in E. subst offered.
    destruct (Py.falsy member_id || Py.falsy book_id) eqn:Ef.
    { unfold loan_book. now rewrite Ef. }
    apply orb_false_iff in Ef. destruct Ef as [Hm Hb].
    apply falsy_true_or_not in Hm. apply falsy_true_or_not in Hb.
    destruct period as [period|].
    2: { unfold loan_book. rewrite (falsy_false _ Hm), (falsy_false _ Hb). exact Hc. }
    destruct (proj1 (selector_exact s book_id Hnd Hb) Hin) as (b0 & Hfound & Hcopies).
    destruct (next_match_in Book.id String.eqb has_id_spec _ _ _ Hfound) as [Hin0 Hid0].
    rewrite (loan_book_accepted s _ _ period today Hm Hb). cbn [fst].
    eapply (consistent_after s _ book_id handed_out 1 Hc); [reflexivity | | | | ].
    + intros b. apply handed_out_fields.
    + intros j. cbn [loans]. rewrite on_loan_app. cbn [Loan.active Loan.return_date
                                                        Loan.book_id andb].
      rewrite String.eqb_sym. destruct (String.eqb j book_id); reflexivity.
    + intros b Hb_in Hb_id.
      assert (b = b0) by (apply (unique_book (books s)); auto; congruence). subst b.
      destruct (handed_out_fields b0) as [_ Ht]. rewrite Ht, handed_out_available. lia.
    + cbn [loans]. apply Forall_app. split; [exact Hcat|]. constructor; [|constructor].
      intros _. cbn [Loan.book_id]. rewrite <- Hid0. now apply in_map.
  - unfold renew_loan.
    destruct row; [|exact Hc]. destruct (Py.next_match _ _); [|exact Hc].
    destruct days; [|exact Hc]. cbn [fst].
    apply (consistent_same_books s); [reflexivity | | exact Hc].
    cbn [loans set_loans]. apply mutate_first_view_all. reflexivity.
  - (* return_book *)
    destruct row as [loan_id|]; [|exact Hc].
    destruct (Py.next_match (Loan.has_id loan_id) (loans s)) as [loan|] eqn:El.
    2: { unfold return_book. rewrite El. exact Hc. }
    eapply (consistent_after s _ (Loan.book_id loan) taken_back (-1) Hc).
    + apply (return_book_books s loan_id loan today pay_now El).
    + intros b. apply taken_back_fields.
    + intros j. unfold return_book. rewrite El. cbn [fst loans].
      unfold on_loan. rewrite (count_after_mutation _ _ _ _ loan El).
      rewrite returned_inactive, Ha. cbn [andb Z.b2z].
      rewrite String.eqb_sym. destruct (String.eqb j (Loan.book_id loan)); cbn [Z.b2z]; lia.
    + intros b Hb_in _. destruct (taken_back_fields b) as [_ Ht].
      rewrite Ht, taken_back_available.
      pose proof (proj1 (Forall_forall _ _) Hpos b Hb_in). cbv beta in *. lia.
    + unfold return_book. rewrite El. cbn [fst loans].
      apply mutate_first_Forall; [|exact Hcat].
      intros y _ Hactive. now rewrite returned_inactive in Hactive.
  - unfold pay_member_fines.
    destruct selected; [|exact Hc]. destruct (Py.falsy _); [exact Hc|].
    destruct (negb _); [exact Hc|]. destruct confirm; [|exact Hc]. cbn [fst].
    apply (consistent_same_books s); [reflexivity | | exact Hc].
    cbn [loans set_loans]. apply mutate_all_view. reflexivity.
  - apply (consistent_same_books s); [reflexivity | reflexivity | exact Hc].
Qed.

Lemma consistent_within_bounds (s : LibraryApp) :
  consistent s -> Forall within_bounds (books s).
Proof.
  intros Hc. apply consistent_spelled_out in Hc. destruct Hc as (_ & Hok & Hpos & _).
  apply Forall_forall. intros b Hin.
  pose proof (proj1 (Forall_forall _ _) Hok b Hin) as H1.
  pose proof (proj1 (Forall_forall _ _) Hpos b Hin) as H2.
  pose proof (on_loan_nonneg (Book.id b) (loans s)).
  unfold within_bounds. cbv beta in *. lia.
Qed.

(** X16.  Work at the desk keeps the books right.  From a consistent
    state, every session of loans on books that the selector offers,
    returns of loans that are open, new copies, renewals, fine payments,
    member changes and settings leaves a state in which the generator's
    check finds no inconsistency, book ids are distinct, and every book
    has [0 <= available_copies <= total_copies]. *)
Theorem desk_session_keeps_books_right (session : list action) (s : LibraryApp) :
  consistent s ->
  desk_session session s = true ->
  consistent (run session s) /\
  book_loan_consistency_check (books (run session s)) (loans (run session s)) = 0 /\
  Forall within_bounds (books (run session s)).
Proof.
  revert s. induction session as [|a session IH]; intros s Hc Hs.
  - cbn [run]. split; [exact Hc|]. split; [apply Hc | now apply consistent_within_bounds].
  - cbn [desk_session] in Hs. apply andb_true_iff in Hs. destruct Hs as [Ha Hs].
    cbn [run]. apply IH; [|exact Hs]. now apply slot_keeps_consistent.
Qed.

Lemma desk_session_keeps_books_right_witness :
  desk_session
    [AddMember Scenario.reader; AddBook "Divan" "Hafez" "1390" 2;
     LoanBook "10000001" "Divan_Hafez_1390" (Some 14) 100;
     ReturnBook (Some 1) 120 false] init = true /\
  Forall within_bounds
    (books (run [AddMember Scenario.reader; AddBook "Divan" "Hafez" "1390" 2;
                 LoanBook "10000001" "Divan_Hafez_1390" (Some 14) 100;
                 ReturnBook (Some 1) 120 false] init)).
Proof.
  split; [reflexivity|].
  apply (desk_session_keeps_books_right
           [AddMember Scenario.reader; AddBook "Divan" "Hafez" "1390" 2;
            LoanBook "10000001" "Divan_Hafez_1390" (Some 14) 100;
            ReturnBook (Some 1) 120 false] init).
  - unfold consistent. cbn [init books loans map].
    split; [constructor|]. split; [reflexivity|]. split; constructor.
  - reflexivity.
Defined.
End DeskFacts.

(** ** Writing the data file and reading it back *)

Section DumpFacts.
Import Persistence Dump.

Lemma object_set_new (name : string) (v : json) (entries : list (string * json)) :
  ~ In name (map fst entries) -> object_set name v entries = entries ++ [(name, v)].
Proof.
  induction entries as [|[k old] entries IH]; cbn [object_set map fst app In];
    intros H; [reflexivity|].
  destruct (String.eqb_spec k name) as [E|E]; [exfalso; apply H; now left|].
  f_equal. apply IH. intros Hin. apply H. now right.
Qed.

(** string keys written once each come back as they were *)
Lemma written_object_keyed (entries : list (string * json)) :
  NoDup (map fst entries) -> written_object (keyed entries) = JObj entries.
Proof.
  intros Hnd. unfold written_object. f_equal.
  assert (H : forall acc,
             NoDup (map fst (acc ++ entries)) ->
             fold_left (fun es '(k, v) => object_set (key_text k) v es)
                       (keyed entries) acc = acc ++ entries).
  { clear Hnd. induction entries as [|[name v] entries IH]; intros acc Hnd;
      cbn [keyed map fold_left].
    - now rewrite app_nil_r.
    - cbn [key_text]. rewrite object_set_new.
      + fold (keyed entries). rewrite IH; rewrite <- app_assoc; [reflexivity | exact Hnd].
      + rewrite map_app in Hnd. cbn [map fst] in Hnd.
        apply NoDup_remove_2 in Hnd. intros Hin. apply Hnd.
        apply in_or_app. now left. }
  apply (H []). exact Hnd.
Qed.

Lemma key_eqb_name (k : key) (name : string) :
  key_eqb k (KStr name) = true <-> k = KStr name.
Proof.
  destruct k as [|b|n|x]; cbn.
  - split; discriminate.
  - split; discriminate.
  - split; discriminate.
  - rewrite String.eqb_eq. split; congruence.
Qed.

Lemma getitem_setitem_same (name : string) (v : json) (d : dict) :
  getitem (KStr name) (setitem (KStr name) v d) = Some v.
Proof.
  induction d as [|[k old] d IH]; cbn [setitem getitem].
  - now rewrite (proj2 (key_eqb_name _ _) eq_refl).
  - destruct (key_eqb k (KStr name)) eqn:E; cbn [getitem]; rewrite E;
      [reflexivity | exact IH].
Qed.

Lemma getitem_setitem_other (name other : string) (v : json) (d : dict) :
  other <> name ->
  getitem (KStr other) (setitem (KStr name) v d) = getitem (KStr other) d.
Proof.
  intros Hne.
  assert (Hoff : key_eqb (KStr name) (KStr other) = false)
    by (cbn; apply String.eqb_neq; congruence).
  induction d as [|[k old] d IH]; cbn [setitem getitem].
  - now rewrite Hoff.
  - destruct (key_eqb k (KStr name)) eqn:E; cbn [getitem].
    + apply key_eqb_name in E. subst k. now rewrite Hoff.
    + destruct (key_eqb k (KStr other)); [reflexivity | exact IH].
Qed.

Lemma getitem_merged_other (entries : list (string * json)) (other : string) :
  ~ In other (map fst entries) ->
  forall d, getitem (KStr other) (merged entries d) = getitem (KStr other) d.
Proof.
  unfold merged. induction entries as [|[name v] entries IH];
    cbn [map fst In fold_left]; intros H d; [reflexivity|].
  rewrite IH by (intros Hin; apply H; now right).
  apply getitem_setitem_other. intros E. apply H. now left.
Qed.

Lemma getitem_merged (entries : list (string * json)) (name : string) (v : json) :
  NoDup (map fst entries) -> In (name, v) entries ->
  forall d, getitem (KStr name) (merged entries d) = Some v.
Proof.
  induction entries as [|[n0 v0] entries IH]; cbn [map fst In];
    intros Hnd Hin d; [contradiction|].
  inversion Hnd as [|? ? Hn0 Hrest]; subst.
  unfold merged. cbn [fold_left]. fold (merged entries (setitem (KStr n0) v0 d)).
  destruct Hin as [E|Hin].
  - injection E as -> ->.
    rewrite (getitem_merged_other entries name Hn0). apply getitem_setitem_same.
  - now apply IH.
Qed.

Lemma setitem_keyed_present (entries : list (string * json)) (name : string) (v : json) :
  NoDup (map fst entries) -> In (name, v) entries ->
  setitem (KStr name) v (keyed entries) = keyed entries.
Proof.
  induction entries as [|[n0 v0] entries IH]; cbn [map fst In keyed setitem];
    intros Hnd Hin; [contradiction|].
  inversion Hnd as [|? ? Hn0 Hrest]; subst. fold (keyed entries).
  cbn [key_eqb]. destruct (String.eqb_spec n0 name) as [E|E].
  - subst n0. destruct Hin as [Hhead|Hin]; [now injection Hhead as ->|].
    exfalso. apply Hn0. apply in_map_iff. now exists (name, v).
  - f_equal. apply IH; [exact Hrest|].
    destruct Hin as [Hhead|Hin]; [|exact Hin]. injection Hhead as -> _. contradiction.
Qed.

Lemma merged_into_itself (entries : list (string * json)) :
  NoDup (map fst entries) -> merged entries (keyed entries) = keyed entries.
Proof.
  intros Hnd.
  assert (H : forall part, incl part entries ->
                           merged part (keyed entries) = keyed entries).
  { induction part as [|[name v] part IH]; intros Hincl; [reflexivity|].
    unfold merged. cbn [fold_left].
    rewrite (setitem_keyed_present entries name v Hnd) by (apply Hincl; now left).
    apply IH. intros e He. apply Hincl. now right. }
  apply H. apply incl_refl.
Qed.

(** X17.  What [save_data] writes, [load_data] reads back.  When the
    settings have string keys, each once, loading the written file shows
    no warning and gives the members, books and loans that were saved and,
    under every settings key, the saved value, whatever the memory held
    before; loaded on top of the same settings it gives the saved state
    itself. *)
Theorem save_data_then_load_data (s s0 : memory) (entries : list (string * json)) :
  settings s = keyed entries ->
  NoDup (map fst entries) ->
  snd (load_data (save_data s) s0) = Silent /\
  members (fst (load_data (save_data s) s0)) = members s /\
  books (fst (load_data (save_data s) s0)) = books s /\
  loans (fst (load_data (save_data s) s0)) = loans s /\
  (forall name v, In (name, v) entries ->
     getitem (KStr name) (settings (fst (load_data (save_data s) s0))) = Some v) /\
  (settings s0 = settings s -> fst (load_data (save_data s) s0) = s).
Proof.
  intros Hs Hnd. unfold save_data, load_data.
  cbn [dict_get String.eqb Ascii.eqb Bool.eqb members books loans settings].
  rewrite Hs, (written_object_keyed entries Hnd). cbn [update].
  fold (merged entries (settings s0)). cbn [fst snd members books loans settings].
  repeat split.
  - intros name v Hin. now apply getitem_merged.
  - intros H0. rewrite H0, (merged_into_itself entries Hnd), <- Hs.
    now destruct s.
Qed.

Lemma save_data_then_load_data_witness :
  settings FileScenario.loaded
  = keyed [("default_loan_period"%string, JNum 14); ("fine_per_day"%string, JNum 1000)] /\
  load_data (save_data FileScenario.loaded) init = (FileScenario.loaded, Silent).
Proof.
  split; [reflexivity|].
  pose proof (save_data_then_load_data FileScenario.loaded init
                [("default_loan_period"%string, JNum 14); ("fine_per_day"%string, JNum 1000)]
                eq_refl) as H.
  destruct H as (Hbox & _ & _ & _ & _ & Hsame).
  - repeat constructor; simpl; intuition discriminate.
  - rewrite (surjective_pairing (load_data _ _)), Hbox, (Hsame eq_refl). reflexivity.
Defined.
End DumpFacts.

(** ** More on ids, dates and files *)

Section IdFacts.
Import App.

Lemma numbered_from_NoDup (ls : list Loan.t) :
  forall n, numbered_from n ls -> NoDup (map Loan.id ls).
Proof.
  induction ls as [|l ls IH]; intros n H; cbn [map]; [constructor|].
  destruct H as [Hn H]. constructor; [|now apply (IH (n + 1))].
  intros Hin. apply in_map_iff in Hin. destruct Hin as (x & Hx & Hin).
  pose proof (numbered_from_below ls (n + 1) H x Hin). lia.
Qed.

(** X18.  As long as no backup is restored, the ledger numbers its loans
    1, 2, 3, ... in the order they were issued: no slot removes or
    renumbers a loan.  So loan ids are distinct, and none of them is the
    id that the next loan will get. *)
Theorem loan_ids_count_up (session : list action) :
  forallb (fun a => negb (is_restore a)) session = true ->
  numbered_from 1 (loans (run session init)) /\
  NoDup (map Loan.id (loans (run session init))) /\
  (forall l, In l (loans (run session init)) ->
             1 <= Loan.id l <= Py.len (loans (run session init)) /\
             Loan.id l <> Py.len (loans (run session init)) + 1).
Proof.
  intros Hs.
  pose proof (run_keeps_numbering session Hs init I) as H.
  split; [exact H|]. split; [now apply (numbered_from_NoDup _ 1)|].
  intros l Hl. pose proof (numbered_from_below _ 1 H l Hl). lia.
Qed.

Lemma loan_ids_count_up_witness :
  forallb (fun a => negb (is_restore a))
    [AddMember Scenario.reader; AddBook "Divan" "Hafez" "1390" 2;
     LoanBook "10000001" "Divan_Hafez_1390" (Some 14) 100;
     LoanBook "10000001" "Divan_Hafez_1390" (Some 7) 101;
     ReturnBook (Some 1) 120 false] = true /\
  NoDup (map Loan.id
           (loans (run [AddMember Scenario.reader; AddBook "Divan" "Hafez" "1390" 2;
                        LoanBook "10000001" "Divan_Hafez_1390" (Some 14) 100;
                        LoanBook "10000001" "Divan_Hafez_1390" (Some 7) 101;
                        ReturnBook (Some 1) 120 false] init))).
Proof.
  split; [reflexivity|].
  apply (loan_ids_count_up
           [AddMember Scenario.reader; AddBook "Divan" "Hafez" "1390" 2;
            LoanBook "10000001" "Divan_Hafez_1390" (Some 14) 100;
            LoanBook "10000001" "Divan_Hafez_1390" (Some 7) 101;
            ReturnBook (Some 1) 120 false]).
  reflexivity.
Defined.
End IdFacts.

Section FieldFacts.
Variable fromgregorian : Z -> Z -> Z -> option string.

Lemma map_int_length (pieces : list string) (ns : list Z) :
  Py.map_int pieces = Some ns -> List.length ns = List.length pieces.
Proof.
  revert ns. induction pieces as [|p pieces IH]; intros ns; cbn [Py.map_int].
  - now intros [= <-].
  - destruct (Py.int p); [|discriminate].
    destruct (Py.map_int pieces) as [rest|]; [|discriminate].
    intros [= <-]. cbn [List.length]. f_equal. now apply IH.
Qed.

(** X19.  A date text that is not empty and does not have exactly three
    fields between '-' signs never reaches the calendar library:
    [to_jalali] shows the text as it is. *)
Theorem to_jalali_needs_three_fields (date_str : string) :
  date_str <> EmptyString ->
  List.length (Py.split "-"%char date_str) <> 3%nat ->
  Calendar.to_jalali fromgregorian date_str = date_str.
Proof.
  intros Hne Hfields. unfold Calendar.to_jalali. rewrite (falsy_false _ Hne).
  destruct (Py.map_int _) as [ns|] eqn:E; [|reflexivity].
  apply map_int_length in E.
  destruct ns as [|y [|m [|d [|extra ns]]]]; try reflexivity.
  cbn [List.length] in E. congruence.
Qed.
End FieldFacts.

Lemma to_jalali_needs_three_fields_witness :
  List.length (Py.split "-"%char "2024-01") <> 3%nat /\
  Calendar.to_jalali (fun _ _ _ => None) "2024-01" = "2024-01"%string.
Proof.
  split; [discriminate|].
  apply (to_jalali_needs_three_fields (fun _ _ _ => None) "2024-01"); discriminate.
Defined.

Section MissingKeys.
Import Persistence.

Lemma dict_get_absent (d : list (string * json)) (name : string) (default : json) :
  ~ In name (map fst d) -> dict_get d name default = default.
Proof.
  induction d as [|[k v] d IH]; cbn [dict_get map fst In]; intros H; [reflexivity|].
  destruct (String.eqb_spec k name) as [E|E]; [exfalso; apply H; now left|].
  apply IH. intros Hin. apply H. now right.
Qed.

(** X20.  A data file that is an object without the key 'settings' is
    loaded without a warning and leaves the settings as they are; each of
    'members', 'books' and 'loans' that the object lacks is replaced by
    the empty list, whatever was in memory. *)
Theorem load_data_missing_keys (d : list (string * json)) (s : memory) :
  ~ In "settings"%string (map fst d) ->
  snd (load_data (Text (Some (JObj d))) s) = Silent /\
  settings (fst (load_data (Text (Some (JObj d))) s)) = settings s /\
  (~ In "members"%string (map fst d) ->
   members (fst (load_data (Text (Some (JObj d))) s)) = JArr []) /\
  (~ In "books"%string (map fst d) ->
   books (fst (load_data (Text (Some (JObj d))) s)) = JArr []) /\
  (~ In "loans"%string (map fst d) ->
   loans (fst (load_data (Text (Some (JObj d))) s)) = JArr []).
Proof.
  intros Hs. unfold load_data. cbn [members books loans settings].
  rewrite (dict_get_absent d "settings" _ Hs). cbn [update fold_left fst snd].
  cbn [members books loans settings].
  repeat split; intros H; now apply dict_get_absent.
Qed.

Lemma load_data_missing_keys_witness :
  ~ In "settings"%string (map fst [("books"%string, JArr [])]) /\
  members (fst (load_data (Text (Some (JObj [("books"%string, JArr [])])))
                  FileScenario.loaded)) = JArr [] /\
  settings (fst (load_data (Text (Some (JObj [("books"%string, JArr [])])))
                   FileScenario.loaded)) = settings FileScenario.loaded.
Proof.
  assert (Hs : ~ In "settings"%string (map fst [("books"%string, JArr [])]))
    by (simpl; intuition discriminate).
  split; [exact Hs|].
  destruct (load_data_missing_keys [("books"%string, JArr [])] FileScenario.loaded Hs)
    as (_ & Hset & Hmem & _).
  split; [|exact Hset]. apply Hmem. simpl. intuition discriminate.
Defined.
End MissingKeys.
